(** * lazydata: the remote storage backend (lazydata/storage/remote.py)

    A shallow embedding of [RemoteStorage], [AWSRemoteStorage] and
    [S3ProgressPercentage], with the properties of the storage URL
    resolver, the bucket probe, the upload loop and the progress counter.

    Python [str] values are modelled as [string], one [ascii] per code
    point (so the model covers code points below 256).  Exceptions are
    modelled by the [result] type; the remote service and the local file
    system are explicit values passed to the code that uses them. *)

From Stdlib Require Import ZArith Lia List Ascii String Bool.
From stdpp Require Import base option list gmap strings.

Local Open Scope string_scope.

(** ** Exceptions *)

(** The exceptions that the module raises itself carry their message;
    of the exceptions raised by the interpreter and its library only
    the class is kept, with the key of a [KeyError] and the file name
    of an [OSError]. *)
Inductive exn : Type :=
  | RuntimeError (msg : string)
  | NotImplementedError (msg : string)
  | ValueError
  | KeyError (key : string)
  | AttributeError
  | TypeError
  | ZeroDivisionError
  | OverflowError
  | OSError (path : string)
  | SdkError (name : string).

Inductive result (A : Type) : Type :=
  | Ok (a : A)
  | Raise (e : exn).

Arguments Ok {A} a.
Arguments Raise {A} e.

#[global] Instance result_ret : MRet result := λ A a, Ok a.

#[global] Instance result_bind : MBind result := λ A B k r,
  match r with
  | Ok a => k a
  | Raise e => Raise e
  end.

(** ** Python string operations used by the module *)

Module PyStr.

(** [s.startswith(p)] *)
Fixpoint startswith (s p : string) {struct p} : bool :=
  match p with
  | EmptyString => true
  | String a p' =>
      match s with
      | String b s' => Ascii.eqb a b && startswith s' p'
      | EmptyString => false
      end
  end.

Definition code (c : ascii) : N := N_of_ascii c.

(** [c.isspace()] on code points below 256. *)
Definition isspace (c : ascii) : bool :=
  let n := code c in
  ((9 <=? n) && (n <=? 13) || (28 <=? n) && (n <=? 32)
   || (n =? 133) || (n =? 160))%N.

Fixpoint lstrip (s : string) : string :=
  match s with
  | String c s' => if isspace c then lstrip s' else s
  | EmptyString => EmptyString
  end.

Fixpoint rstrip (s : string) : string :=
  match s with
  | String c s' =>
      match rstrip s' with
      | EmptyString => if isspace c then EmptyString else String c EmptyString
      | r => String c r
      end
  | EmptyString => EmptyString
  end.

(** [s.strip()] *)
Definition strip (s : string) : string := rstrip (lstrip s).

(** [s.lstrip(ch)] for a single character, with the number of
    characters removed. *)
Fixpoint lstrip_char (ch : ascii) (s : string) : nat * string :=
  match s with
  | String c s' =>
      if Ascii.eqb c ch
      then let '(n, r) := lstrip_char ch s' in (S n, r)
      else (O, s)
  | EmptyString => (O, EmptyString)
  end.

(** [s.split(sep)] for a single-character separator: never empty. *)
Fixpoint split (sep : ascii) (s : string) : list string :=
  match s with
  | EmptyString => [EmptyString]
  | String c s' =>
      if Ascii.eqb c sep then EmptyString :: split sep s'
      else match split sep s' with
           | h :: t => String c h :: t
           | [] => [String c EmptyString]
           end
  end.

(** [sep.join(l)] *)
Fixpoint join (sep : string) (l : list string) : string :=
  match l with
  | [] => EmptyString
  | [x] => x
  | x :: rest => x ++ sep ++ join sep rest
  end.

(** [ch in s] *)
Fixpoint contains (ch : ascii) (s : string) : bool :=
  match s with
  | String c s' => Ascii.eqb c ch || contains ch s'
  | EmptyString => false
  end.

(** [s.split(ch, 1)] when [ch in s]; otherwise [(s, "")]. *)
Fixpoint partition (ch : ascii) (s : string) : string * string :=
  match s with
  | String c s' =>
      if Ascii.eqb c ch then (EmptyString, s')
      else let '(a, b) := partition ch s' in (String c a, b)
  | EmptyString => (EmptyString, EmptyString)
  end.

Definition is_digit (c : ascii) : bool :=
  ((48 <=? code c) && (code c <=? 57))%N.

Definition digit_value (c : ascii) : Z := Z.of_N (code c) - 48.

(** The digits of an [int] literal: decimal digits, single underscores
    allowed between two digits. *)
Fixpoint int_digits (acc : Z) (after_digit : bool) (s : string) : option Z :=
  match s with
  | EmptyString => if after_digit then Some acc else None
  | String c s' =>
      if is_digit c then int_digits (acc * 10 + digit_value c) true s'
      else if Ascii.eqb c "_" && after_digit then
             match s' with
             | String d _ => if is_digit d then int_digits acc false s' else None
             | EmptyString => None
             end
      else None
  end.

(** The whitespace that [int] skips around a literal: the C locale's
    white space, and the two other blanks below 256, which [int] first
    turns into spaces.  The separators 28 to 31, which [strip] removes,
    are not among them. *)
Definition int_space (c : ascii) : bool :=
  let n := code c in
  ((9 <=? n) && (n <=? 13) || (n =? 32) || (n =? 133) || (n =? 160))%N.

Fixpoint lstrip_with (p : ascii → bool) (s : string) : string :=
  match s with
  | String c s' => if p c then lstrip_with p s' else s
  | EmptyString => EmptyString
  end.

Fixpoint rstrip_with (p : ascii → bool) (s : string) : string :=
  match s with
  | String c s' =>
      match rstrip_with p s' with
      | EmptyString => if p c then EmptyString else String c EmptyString
      | r => String c r
      end
  | EmptyString => EmptyString
  end.

(** The number of digits of a literal, and the most that [int] converts
    (the interpreter's default limit on decimal strings). *)
Fixpoint digit_count (s : string) : Z :=
  match s with
  | String c s' => ((if is_digit c then 1 else 0) + digit_count s')%Z
  | EmptyString => 0%Z
  end.

Definition max_str_digits : Z := 4300%Z.

Definition int_literal (d : string) : option Z :=
  match int_digits 0 false d with
  | Some n => if (max_str_digits <? digit_count d)%Z then None else Some n
  | None => None
  end.

(** [int(s)] for a string: surrounding whitespace, an optional sign,
    decimal digits.  [None] stands for [ValueError]. *)
Definition to_int (s : string) : option Z :=
  match rstrip_with int_space (lstrip_with int_space s) with
  | String "-" d => option_map Z.opp (int_literal d)
  | String "+" d => int_literal d
  | d => int_literal d
  end.

End PyStr.

(** ** [urllib.parse.urlparse]

    The standard library's parser, as far as the module uses it: the
    [netloc] and [path] fields of the result, as the parser of the
    interpreters the module was written for computes them.  Later
    versions agree with it on a URL that starts with [s3://] except
    when the URL holds a tab, a line feed or a carriage return, which
    they delete before they split it, and when the authority holds a
    host in square brackets, which they also check to be an address.
    The scheme is split off
    at the first colon when the text before it is made of scheme
    characters and the text after it is not a port number; a remainder
    that begins with two slashes yields the authority up to the next
    slash, question mark or hash; the fragment and the query are cut
    off the path. *)

Module UrlParse.

Record ParseResult : Type := mkParseResult {
  scheme : string;
  netloc : string;
  path : string;
  query : string;
  fragment : string
}.

Definition is_scheme_char (c : ascii) : bool :=
  let n := PyStr.code c in
  ((97 <=? n) && (n <=? 122) || (65 <=? n) && (n <=? 90)
   || PyStr.is_digit c
   || (n =? 43) || (n =? 45) || (n =? 46))%N.

Fixpoint all_chars (p : ascii → bool) (s : string) : bool :=
  match s with
  | String c s' => p c && all_chars p s'
  | EmptyString => true
  end.

Definition lower_char (c : ascii) : ascii :=
  let n := PyStr.code c in
  if ((65 <=? n) && (n <=? 90))%N then ascii_of_N (n + 32) else c.

Fixpoint lower (s : string) : string :=
  match s with
  | String c s' => String (lower_char c) (lower s')
  | EmptyString => EmptyString
  end.

(** [_splitnetloc(url, 0)]: the text up to the first of [/ ? #]. *)
Fixpoint splitnetloc (s : string) : string * string :=
  match s with
  | String c s' =>
      if Ascii.eqb c "/" || Ascii.eqb c "?" || Ascii.eqb c "#"
      then (EmptyString, s)
      else let '(a, b) := splitnetloc s' in (String c a, b)
  | EmptyString => (EmptyString, EmptyString)
  end.

(** The scheme and the remainder of the URL. *)
Definition split_scheme (url : string) : string * string :=
  if PyStr.contains ":" url then
    let '(before, rest) := PyStr.partition ":" url in
    match before with
    | EmptyString => (EmptyString, url)
    | _ =>
        if String.eqb before "http" then ("http", rest)
        else if all_chars is_scheme_char before then
          match rest with
          | EmptyString => (lower before, rest)
          | _ => if all_chars PyStr.is_digit rest then (EmptyString, url)
                 else (lower before, rest)
          end
        else (EmptyString, url)
    end
  else (EmptyString, url).

(** The authority, when the remainder begins with two slashes. *)
Definition split_authority (rest : string) : result (string * string) :=
  match rest with
  | String "/" (String "/" after) =>
      let '(loc, rest') := splitnetloc after in
      if xorb (PyStr.contains "[" loc) (PyStr.contains "]" loc)
      then Raise ValueError
      else Ok (loc, rest')
  | _ => Ok (EmptyString, rest)
  end.

Definition urlparse (url : string) : result ParseResult :=
  let '(sch, rest) := split_scheme url in
  '(loc, rest) ← split_authority rest;
  let '(rest, frag) := PyStr.partition "#" rest in
  let '(rest, qry) := PyStr.partition "?" rest in
  Ok (mkParseResult sch loc rest qry frag).

End UrlParse.

(** ** Configuration

    [Config.config] is the mapping read from the project file: the
    optional ["remote"] URL and the ["files"] list, whose entries are
    mappings with a ["hash"] field. *)

Inductive cfg_value : Type :=
  | CStr (s : string)
  | CFiles (entries : list (gmap string string)).

Record Config : Type := mkConfig { config : gmap string cfg_value }.

(** ** The backend handle *)

Record AWSRemoteStorage : Type := mkAWSRemoteStorage {
  url : string;
  bucket_name : string;
  path_prefix : string
}.

Module AWS.

(** [AWSRemoteStorage.__init__].  The SDK resource and client that the
    constructor creates last are not fields of the record: their
    creation is taken to succeed, and the state they talk to is the
    [Remote] value passed to the methods. *)
Definition init (remote_url : string) : result AWSRemoteStorage :=
  if negb (PyStr.startswith remote_url "s3://") then
    Raise (RuntimeError "AWSRemoteStorage URL needs to start with s3://")
  else
    p ← UrlParse.urlparse remote_url;
    let path_prefix := PyStr.strip (UrlParse.path p) in
    let path_prefix :=
      if PyStr.startswith path_prefix "/"
      then String.substring 1 (String.length path_prefix - 1) path_prefix
      else path_prefix in
    Ok (mkAWSRemoteStorage remote_url (UrlParse.netloc p) path_prefix).

End AWS.

Module RemoteStorage.

(** [RemoteStorage.get_from_url] *)
Definition get_from_url (remote_url : string) : result AWSRemoteStorage :=
  if PyStr.startswith remote_url "s3://" then AWS.init remote_url
  else Raise (RuntimeError
         ("Url `" ++ remote_url ++ "` is not supported as a remote storage backend")).

(** [RemoteStorage.get_from_config] *)
Definition get_from_config (cfg : Config) : result AWSRemoteStorage :=
  match config cfg !! "remote" with
  | Some (CStr remote_url) => get_from_url remote_url
  | Some (CFiles _) => Raise AttributeError
  | None =>
      Raise (RuntimeError
        "Remote storage backend not configured for this lazydata project.")
  end.

(** The methods of the abstract base class. *)
Definition check_storage_exists : result bool :=
  Raise (NotImplementedError "Not implemented for this storage backend.").

Definition upload : result unit :=
  Raise (NotImplementedError "Not implemented for this storage backend.").

End RemoteStorage.

(** ** [pathlib.PurePosixPath]

    The standard library's pure path class, as far as the module uses
    it: construction from string segments and conversion to [str].
    Segments are read from the last to the first; a segment that
    begins with a slash is a root and ends the reading, so the
    segments before it are dropped.  Empty components and [.]
    components are dropped, and exactly two leading slashes are kept
    as a root of their own. *)

Module PurePosixPath.

Record t : Type := mk { root : string; parts : list string }.

(** [_PosixFlavour.splitroot] *)
Definition splitroot (part : string) : string * string :=
  match part with
  | String "/" _ =>
      let '(n, stripped) := PyStr.lstrip_char "/" part in
      if Nat.eqb n 2 then ("//", stripped) else ("/", stripped)
  | _ => (EmptyString, part)
  end.

Definition keep (x : string) : bool :=
  negb (String.eqb x EmptyString) && negb (String.eqb x ".").

Definition components (rel : string) : list string :=
  List.filter keep (PyStr.split "/" rel).

(** [parse_parts], on the segments in reverse order. *)
Fixpoint parse_rev (segments : list string) : t :=
  match segments with
  | [] => mk EmptyString []
  | EmptyString :: before => parse_rev before
  | part :: before =>
      let '(rt, rel) := splitroot part in
      match rt with
      | EmptyString =>
          let p := parse_rev before in
          mk (root p) (parts p ++ components rel)%list
      | _ => mk rt (components rel)
      end
  end.

(** The constructor, applied to its segments. *)
Definition make (segments : list string) : t := parse_rev (rev segments).

(** [str(path)] *)
Definition str (p : t) : string :=
  match root p ++ PyStr.join "/" (parts p) with
  | EmptyString => "."
  | s => s
  end.

End PurePosixPath.

(** ** Integers as floats

    The value of [float(n)] for an integer: the nearest number with 53
    significant bits, ties to the even one; [None] stands for
    [OverflowError], raised when that number is 2^1024 or more. *)

Module Float.

Definition round (n : Z) : Z :=
  let a := Z.abs n in
  if (a <? 2 ^ 53)%Z then n
  else
    let e := (Z.log2 a - 52)%Z in
    let q := (a / 2 ^ e)%Z in
    let r := (a mod 2 ^ e)%Z in
    let q' := if ((2 ^ (e - 1) <? r) || ((r =? 2 ^ (e - 1)) && Z.odd q))%Z
              then (q + 1)%Z else q in
    (Z.sgn n * (q' * 2 ^ e))%Z.

Definition of_int (n : Z) : option Z :=
  if (2 ^ 1024 <=? Z.abs (round n))%Z then None else Some (round n).

End Float.

(** ** The progress callback *)

Record FileSystem : Type := mkFileSystem {
  (** [os.path.getsize]; [None] when the call raises [OSError]. *)
  getsize : string → option Z;
  (** A size is the [st_size] of the file, a signed 64-bit number. *)
  getsize_range : ∀ filename n,
    getsize filename = Some n → (- 2 ^ 63 ≤ n < 2 ^ 63)%Z
}.

Record S3ProgressPercentage : Type := mkS3ProgressPercentage {
  _filename : string;
  _size : Z;
  _seen_so_far : Z
}.

Module Progress.

(** [S3ProgressPercentage.__init__]: [_size] is the float of the size,
    which no size of a file is too large for. *)
Definition init (fs : FileSystem) (filename : string)
  : result S3ProgressPercentage :=
  match getsize fs filename with
  | Some n => Ok (mkS3ProgressPercentage filename (Float.round n) 0)
  | None => Raise (OSError filename)
  end.

(** What one call writes to standard output: the file name, the bytes
    seen so far and the size (the percentage is their quotient). *)
Record line : Type := mkLine {
  shown_name : string;
  shown_seen : Z;
  shown_size : Z
}.

(** [S3ProgressPercentage.__call__]: the counter is updated before the
    percentage is computed, so it is updated also when the division
    raises.  The division turns the counter into a float first
    ([OverflowError]) and then tests the divisor
    ([ZeroDivisionError]). *)
Definition call (self : S3ProgressPercentage) (bytes_amount : Z)
  : S3ProgressPercentage * result line :=
  let self' :=
    mkS3ProgressPercentage (_filename self) (_size self)
                           (_seen_so_far self + bytes_amount) in
  (self',
   match Float.of_int (_seen_so_far self') with
   | None => Raise OverflowError
   | Some _ =>
       if (_size self' =? 0)%Z then Raise ZeroDivisionError
       else Ok (mkLine (_filename self') (_seen_so_far self') (_size self'))
   end).

(** A sequence of calls on the same object. *)
Fixpoint calls (self : S3ProgressPercentage) (amounts : list Z)
  : S3ProgressPercentage :=
  match amounts with
  | [] => self
  | a :: rest => calls (fst (call self a)) rest
  end.

Definition sum (amounts : list Z) : Z := fold_right Z.add 0%Z amounts.

End Progress.

(** ** The cloud SDK and the local store

    [LocalStorage] (lazydata/storage/local.py) and the SDK client are
    collaborators of the module: their methods are taken as the fields
    of a record, and the paths a store returns are taken as their
    strings.  The state of the remote service is an explicit value of
    type [Remote]; the progress lines that a transfer prints are not
    part of it. *)

Record LocalStorage : Type := mkLocalStorage {
  hash_to_file : string → string;
  hash_to_remote_path : string → string
}.

(** The three ways a head request can end: the target is there, the
    SDK raises [ClientError] with a response code, or it raises
    something else. *)
Inductive head_response : Type :=
  | HeadFound
  | HeadClientError (code : string)
  | HeadRaises (e : exn).

Record S3Client (Remote : Type) : Type := mkS3Client {
  head_bucket : Remote → string → head_response;
  head_object : Remote → string → string → head_response;
  upload_file : Remote → string → string → string → result Remote
}.

Arguments head_bucket {Remote} _ _ _.
Arguments head_object {Remote} _ _ _ _.
Arguments upload_file {Remote} _ _ _ _ _.

(** A call of [S3Transfer.upload_file (file, bucket, key)]. *)
Record transfer : Type := mkTransfer {
  t_file : string;
  t_bucket : string;
  t_key : string
}.

#[global] Instance transfer_eq_dec : EqDecision transfer.
Proof. solve_decision. Defined.

(** The [try] ... [except ClientError] block shared by
    [check_storage_exists] and [upload]: [exists] starts as [True] and
    is set to [False] only when the response code, read as an integer,
    is 404. *)
Definition probe_exists (resp : head_response) : result bool :=
  match resp with
  | HeadFound => Ok true
  | HeadClientError code =>
      match PyStr.to_int code with
      | Some error_code => Ok (if (error_code =? 404)%Z then false else true)
      | None => Raise ValueError
      end
  | HeadRaises e => Raise e
  end.

Section Backend.

Context {Remote : Type} (client : S3Client Remote).

(** [AWSRemoteStorage.check_storage_exists] *)
Definition check_storage_exists (self : AWSRemoteStorage) (r : Remote)
  : result bool :=
  probe_exists (head_bucket client r (bucket_name self)).

(** [[e["hash"] for e in config.config["files"]]] *)
Definition all_sha256 (cfg : Config) : result (list string) :=
  match config cfg !! "files" with
  | None => Raise (KeyError "files")
  | Some (CStr EmptyString) => Ok []
  | Some (CStr _) => Raise TypeError
  | Some (CFiles entries) =>
      mapM (M := result)
           (λ e : gmap string string,
              match e !! "hash" with
              | Some h => Ok h
              | None => Raise (KeyError "hash")
              end) entries
  end.

(** The key computed for one hash. *)
Definition s3_key (self : AWSRemoteStorage) (local : LocalStorage)
    (sha256 : string) : string :=
  PurePosixPath.str
    (PurePosixPath.make [path_prefix self; hash_to_remote_path local sha256]).

(** The body of the loop of [upload] for one hash: the transfers it
    starts, and the remote state it leaves or the exception it
    raises. *)
Definition upload_entry (self : AWSRemoteStorage) (local : LocalStorage)
    (fs : FileSystem) (sha256 : string) (r : Remote)
  : list transfer * result Remote :=
  let local_path := hash_to_file local sha256 in
  let key := s3_key self local sha256 in
  match probe_exists (head_object client r (bucket_name self) key) with
  | Raise e => ([], Raise e)
  | Ok true => ([], Ok r)
  | Ok false =>
      match Progress.init fs local_path with
      | Raise e => ([], Raise e)
      | Ok _ =>
          ([mkTransfer local_path (bucket_name self) key],
           upload_file client r local_path (bucket_name self) key)
      end
  end.

Fixpoint upload_loop (self : AWSRemoteStorage) (local : LocalStorage)
    (fs : FileSystem) (hashes : list string) (r : Remote)
  : list transfer * result Remote :=
  match hashes with
  | [] => ([], Ok r)
  | sha256 :: rest =>
      match upload_entry self local fs sha256 r with
      | (ts, Ok r') =>
          let '(ts', out) := upload_loop self local fs rest r' in
          ((ts ++ ts')%list, out)
      | (ts, Raise e) => (ts, Raise e)
      end
  end.

(** [AWSRemoteStorage.upload] *)
Definition upload (self : AWSRemoteStorage) (local : LocalStorage)
    (fs : FileSystem) (cfg : Config) (r : Remote)
  : list transfer * result Remote :=
  match all_sha256 cfg with
  | Raise e => ([], Raise e)
  | Ok hashes => upload_loop self local fs hashes r
  end.

End Backend.

(** ** An in-memory remote service

    Objects are stored under (bucket, key); a head request on a key of
    [forbidden] is answered with code 403, on a missing key with code
    404.  [unreachable] makes every request raise a connection error. *)

Module MemS3.

Record state : Type := mk {
  buckets : gset string;
  objects : gmap (string * string) string;
  forbidden : gset string;
  unreachable : bool
}.

Definition head_bucket (r : state) (bucket : string) : head_response :=
  if unreachable r then HeadRaises (SdkError "EndpointConnectionError")
  else if decide (bucket ∈ forbidden r) then HeadClientError "403"
  else if decide (bucket ∈ buckets r) then HeadFound
  else HeadClientError "404".

Definition head_object (r : state) (bucket key : string) : head_response :=
  if unreachable r then HeadRaises (SdkError "EndpointConnectionError")
  else if decide (key ∈ forbidden r) then HeadClientError "403"
  else match objects r !! (bucket, key) with
       | Some _ => HeadFound
       | None => HeadClientError "404"
       end.

Definition upload_file (r : state) (file bucket key : string) : result state :=
  if unreachable r then Raise (SdkError "EndpointConnectionError")
  else if decide (bucket ∈ buckets r) then
    Ok (mk (buckets r) (<[(bucket, key) := file]> (objects r))
           (forbidden r) (unreachable r))
  else Raise (SdkError "S3UploadFailedError").

Definition client : S3Client state :=
  mkS3Client state head_bucket head_object upload_file.

Definition empty (bucket : string) : state := mk {[bucket]} ∅ ∅ false.

End MemS3.

(** ** Sample collaborators, used to run the code on concrete inputs *)

Module Sample.

Definition local : LocalStorage :=
  mkLocalStorage (λ h, "/cache/" ++ h) (λ h, "data/" ++ h).

(** Every file is there and has ten bytes. *)
Definition fs : FileSystem :=
  mkFileSystem (λ _, Some 10%Z) ltac:(intros ? ? [= <-]; split; lia).

(** No file is there. *)
Definition no_files : FileSystem :=
  mkFileSystem (λ _, None) ltac:(intros ? ? [=]).

Definition cfg (hashes : list string) : Config :=
  mkConfig {[ "files" := CFiles ((λ h, {[ "hash" := h ]}) <$> hashes) ]}.

Definition self : AWSRemoteStorage := mkAWSRemoteStorage "s3://b/p" "b" "p".

(** A bucket [b] in which the key of hash [h1] is forbidden. *)
Definition denied : MemS3.state :=
  MemS3.mk {["b"]} ∅ {["p/data/h1"]} false.

(** A store whose remote paths are absolute. *)
Definition rooted : LocalStorage :=
  mkLocalStorage (λ h, "/cache/" ++ h) (λ h, "/abs/" ++ h).

(** A handle and a store with the prefix and the path of the key
    construction example. *)
Definition versioned : AWSRemoteStorage :=
  mkAWSRemoteStorage "s3://b/data/v1/" "b" "data/v1/".

Definition binned : LocalStorage :=
  mkLocalStorage (λ h, "/cache/" ++ h) (λ _, "ab/cd1234.bin").

(** The bucket [b] after the files of [h1] and [h2] have been sent. *)
Definition synced : MemS3.state :=
  MemS3.mk {["b"]}
    (<[("b", "p/data/h2") := "/cache/h2"]>
       (<[("b", "p/data/h1") := "/cache/h1"]> ∅)) ∅ false.

End Sample.

(** ** Vocabulary of the properties *)

(** The characters of a plain authority: printable ASCII other than
    the ones that end the authority or open a bracketed host. *)
Definition authority_char (c : ascii) : bool :=
  negb (Ascii.eqb c "/" || Ascii.eqb c "?" || Ascii.eqb c "#"
        || Ascii.eqb c "[" || Ascii.eqb c "]")
  && ((33 <=? PyStr.code c) && (PyStr.code c <=? 126))%N.

(** The characters of a path that has no query and no fragment.  Tab,
    line feed and carriage return are left out: later versions of the
    parser delete them from the URL before they split it. *)
Definition path_char (c : ascii) : bool :=
  negb (Ascii.eqb c "?" || Ascii.eqb c "#"
        || (PyStr.code c =? 9)%N || (PyStr.code c =? 10)%N
        || (PyStr.code c =? 13)%N).

(** Two slashes in a row somewhere in the string. *)
Fixpoint has_double_slash (s : string) : bool :=
  match s with
  | String c s' =>
      (Ascii.eqb c "/" && PyStr.startswith s' "/") || has_double_slash s'
  | EmptyString => false
  end.

(** A path component: not empty and without a slash. *)
Definition is_name (x : string) : Prop :=
  x ≠ EmptyString ∧ PyStr.contains "/" x = false.

(** The number of transfers of a trace that go to a key. *)
Definition transfers_to (key : string) (ts : list transfer) : nat :=
  length (List.filter (λ t, String.eqb (t_key t) key) ts).

(** What the upload loop relies on from the remote service: once
    [upload_file] has returned, a probe of the uploaded key no longer
    says 404, and a key that was not reported missing before the upload
    is not reported missing after it. *)
Definition read_after_write {Remote : Type} (client : S3Client Remote) : Prop :=
  ∀ (r r' : Remote) (file bucket key : string),
    upload_file client r file bucket key = Ok r' →
    probe_exists (head_object client r' bucket key) = Ok true
    ∧ ∀ key', probe_exists (head_object client r bucket key') = Ok true →
              probe_exists (head_object client r' bucket key') = Ok true.

(** ASCII letters. *)
Definition is_letter (c : ascii) : bool :=
  ((65 <=? PyStr.code c) && (PyStr.code c <=? 90)
   || (97 <=? PyStr.code c) && (PyStr.code c <=? 122))%N.

(** The last character of the string is a slash. *)
Fixpoint ends_with_slash (s : string) : bool :=
  match s with
  | String c EmptyString => Ascii.eqb c "/"
  | String _ s' => ends_with_slash s'
  | EmptyString => false
  end.

(** The string without its first character. *)
Definition tail (s : string) : string :=
  match s with
  | String _ s' => s'
  | EmptyString => EmptyString
  end.

(** The transfer that [upload] starts for a hash it has to send. *)
Definition entry_transfer (self : AWSRemoteStorage) (local : LocalStorage)
    (sha256 : string) : transfer :=
  mkTransfer (hash_to_file local sha256) (bucket_name self)
             (s3_key self local sha256).

(** * Properties *)

(** ** Strings *)

Lemma startswith_cons (c : ascii) (s p : string) :
  PyStr.startswith (String c s) (String c p) = PyStr.startswith s p.
Proof.
  simpl. now rewrite Ascii.eqb_refl.
Qed.

Lemma partition_absent (ch : ascii) (s : string) :
  PyStr.contains ch s = false → PyStr.partition ch s = (s, EmptyString).
Proof.
  induction s as [|c s IH]; simpl; [reflexivity|].
  destruct (Ascii.eqb c ch); simpl; [discriminate|].
  intros H. rewrite (IH H). reflexivity.
Qed.

Lemma rstrip_nonspace_cons (c : ascii) (s : string) :
  PyStr.isspace c = false → PyStr.rstrip (String c s) = String c (PyStr.rstrip s).
Proof.
  intros H. simpl. destruct (PyStr.rstrip s); [rewrite H|]; reflexivity.
Qed.

(** ** The URL resolver *)

Lemma all_chars_contains (p : ascii → bool) (ch : ascii) (s : string) :
  p ch = false → UrlParse.all_chars p s = true → PyStr.contains ch s = false.
Proof.
  intros Hp. induction s as [|c s IH]; simpl; [reflexivity|].
  intros H. apply andb_true_iff in H as [Hc Hs].
  rewrite (IH Hs), orb_false_r.
  destruct (Ascii.eqb_spec c ch) as [->|]; [congruence|reflexivity].
Qed.

Lemma splitnetloc_authority (b rest : string) :
  UrlParse.all_chars authority_char b = true →
  UrlParse.splitnetloc (b ++ String "/" rest) = (b, String "/" rest).
Proof.
  induction b as [|c b IH]; simpl; [reflexivity|].
  intros H. apply andb_true_iff in H as [Hc Hb].
  rewrite (IH Hb).
  unfold authority_char in Hc. apply andb_true_iff in Hc as [Hc _].
  apply negb_true_iff in Hc.
  repeat (apply orb_false_iff in Hc as [Hc ?]).
  rewrite Hc. simpl. replace (Ascii.eqb c "?") with false by auto.
  replace (Ascii.eqb c "#") with false by auto. reflexivity.
Qed.

Lemma urlparse_s3 (b p : string) :
  UrlParse.all_chars authority_char b = true →
  UrlParse.all_chars path_char p = true →
  UrlParse.urlparse ("s3://" ++ b ++ String "/" p)
  = Ok (UrlParse.mkParseResult "s3" b (String "/" p) EmptyString EmptyString).
Proof.
  intros Hb Hp.
  unfold UrlParse.urlparse, UrlParse.split_scheme, UrlParse.split_authority.
  simpl.
  change (String.append "" (b ++ String "/" p)) with (b ++ String "/" p).
  rewrite (splitnetloc_authority b p Hb).
  rewrite (all_chars_contains authority_char "[" b eq_refl Hb).
  rewrite (all_chars_contains authority_char "]" b eq_refl Hb).
  assert (Hh : PyStr.contains "#" (String "/" p) = false)
    by exact (all_chars_contains path_char "#" p eq_refl Hp).
  assert (Hq : PyStr.contains "?" (String "/" p) = false)
    by exact (all_chars_contains path_char "?" p eq_refl Hp).
  cbn [xorb mbind result_bind].
  rewrite (partition_absent _ _ Hh), (partition_absent _ _ Hq).
  reflexivity.
Qed.

Lemma substring_tail (c : ascii) (s : string) :
  String.substring 1 (String.length (String c s) - 1) (String c s) = s.
Proof.
  simpl. rewrite Nat.sub_0_r.
  induction s as [|d s IH]; simpl; [reflexivity|]. now rewrite IH.
Qed.

Lemma init_s3 (b p : string) :
  UrlParse.all_chars authority_char b = true →
  UrlParse.all_chars path_char p = true →
  AWS.init ("s3://" ++ b ++ String "/" p)
  = Ok (mkAWSRemoteStorage ("s3://" ++ b ++ String "/" p) b (PyStr.rstrip p)).
Proof.
  intros Hb Hp. unfold AWS.init.
  replace (PyStr.startswith ("s3://" ++ b ++ String "/" p) "s3://") with true
    by reflexivity.
  cbn [negb]. rewrite (urlparse_s3 b p Hb Hp).
  cbn [mbind result_bind UrlParse.path UrlParse.netloc].
  unfold PyStr.strip. cbn [PyStr.lstrip].
  replace (PyStr.isspace "/") with false by reflexivity.
  rewrite (rstrip_nonspace_cons "/" p eq_refl).
  rewrite startswith_cons. cbn [PyStr.startswith].
  now rewrite substring_tail.
Qed.

(** ** Resolution from the configuration *)

Lemma split_authority_raises (rest : string) (e : exn) :
  UrlParse.split_authority rest = Raise e → e = ValueError.
Proof.
  unfold UrlParse.split_authority.
  destruct rest as [|c1 [|c2 after]]; try discriminate.
  - destruct (Ascii.eqb_spec c1 "/") as [->|ne]; [discriminate|].
    destruct c1 as [[] [] [] [] [] [] [] []]; discriminate.
  - destruct (UrlParse.splitnetloc after) as [loc rest'].
    destruct (xorb _ _);
      destruct c1 as [[] [] [] [] [] [] [] []]; try discriminate;
      destruct c2 as [[] [] [] [] [] [] [] []]; try discriminate.
    now intros [= <-].
Qed.

Lemma urlparse_raises (remote_url : string) (e : exn) :
  UrlParse.urlparse remote_url = Raise e → e = ValueError.
Proof.
  unfold UrlParse.urlparse.
  destruct (UrlParse.split_scheme remote_url) as [sch rest].
  destruct (UrlParse.split_authority rest) as [[loc rest']|e'] eqn:E;
    cbn [mbind result_bind].
  - destruct (PyStr.partition "#" rest') as [r1 frag].
    destruct (PyStr.partition "?" r1) as [r2 qry]. discriminate.
  - intros [= <-]. exact (split_authority_raises rest e' E).
Qed.

Lemma get_from_url_not_unconfigured (remote_url : string) :
  RemoteStorage.get_from_url remote_url
  ≠ Raise (RuntimeError
      "Remote storage backend not configured for this lazydata project.").
Proof.
  unfold RemoteStorage.get_from_url, AWS.init.
  destruct (PyStr.startswith remote_url "s3://"); cbn [negb]; [|discriminate].
  destruct (UrlParse.urlparse remote_url) as [p|e] eqn:E;
    cbn [mbind result_bind]; [discriminate|].
  apply urlparse_raises in E as ->. discriminate.
Qed.

(** C8.  [RemoteStorage.get_from_config] raises the not-configured error
    exactly when the mapping has no [remote] field, and with the field
    present it returns what [RemoteStorage.get_from_url] returns on
    that URL. *)
Theorem get_from_config_delegates :
  (∀ cfg : Config,
     RemoteStorage.get_from_config cfg
     = Raise (RuntimeError
         "Remote storage backend not configured for this lazydata project.")
     ↔ config cfg !! "remote" = None)
  ∧ (∀ (cfg : Config) (remote_url : string),
       config cfg !! "remote" = Some (CStr remote_url) →
       RemoteStorage.get_from_config cfg
       = RemoteStorage.get_from_url remote_url).
Proof.
  split.
  - intros cfg. unfold RemoteStorage.get_from_config.
    destruct (config cfg !! "remote") as [[u|es]|] eqn:E.
    + split; [|discriminate]. intros H.
      now apply get_from_url_not_unconfigured in H.
    + split; discriminate.
    + split; reflexivity.
  - intros cfg remote_url H. unfold RemoteStorage.get_from_config. now rewrite H.
Qed.

Lemma get_from_config_delegates_witness :
  RemoteStorage.get_from_config (mkConfig {[ "remote" := CStr "s3://mybucket/prefix" ]})
  = RemoteStorage.get_from_url "s3://mybucket/prefix"
  ∧ RemoteStorage.get_from_config (mkConfig ∅)
    = Raise (RuntimeError
        "Remote storage backend not configured for this lazydata project.").
Proof.
  split.
  - apply (proj2 get_from_config_delegates
             (mkConfig {[ "remote" := CStr "s3://mybucket/prefix" ]})
             "s3://mybucket/prefix").
    reflexivity.
  - apply (proj1 get_from_config_delegates (mkConfig ∅)). reflexivity.
Defined.

(** ** The progress counter *)

(** [float] of the size of a file does not overflow, so that making
    the callback raises nothing but the [OSError] of a missing file. *)
Lemma float_of_size (fs : FileSystem) (filename : string) (n : Z) :
  getsize fs filename = Some n → Float.of_int n = Some (Float.round n).
Proof.
  intros H. apply (getsize_range fs) in H.
  assert (H64 : (2 ^ 64 ≤ 2 ^ 1024)%Z) by (apply Z.pow_le_mono_r; lia).
  assert (Ha : (Z.abs n ≤ 2 ^ 63)%Z) by lia.
  unfold Float.of_int.
  enough (Hb : (Z.abs (Float.round n) < 2 ^ 64)%Z).
  { destruct (Z.leb_spec (2 ^ 1024) (Z.abs (Float.round n))); [lia|reflexivity]. }
  unfold Float.round.
  destruct (Z.ltb_spec (Z.abs n) (2 ^ 53)) as [Hs|Hs]; [lia|].
  set (a := Z.abs n) in *. set (e := (Z.log2 a - 52)%Z).
  assert (Hpos : (0 < a)%Z) by lia.
  assert (HL : (53 ≤ Z.log2 a ≤ 63)%Z).
  { split.
    - change 53%Z with (Z.log2 (2 ^ 53)). now apply Z.log2_le_mono.
    - change 63%Z with (Z.log2 (2 ^ 63)). now apply Z.log2_le_mono. }
  assert (He : (1 ≤ e ≤ 11)%Z) by (unfold e; lia).
  assert (Hp : (0 < 2 ^ e ≤ 2 ^ 11)%Z).
  { split; [apply Z.pow_pos_nonneg; lia|apply Z.pow_le_mono_r; lia]. }
  assert (Hq : (0 ≤ a / 2 ^ e)%Z) by (apply Z.div_pos; lia).
  assert (Hm : (2 ^ e * (a / 2 ^ e) ≤ a)%Z) by (apply Z.mul_div_le; lia).
  set (q := (a / 2 ^ e)%Z) in *.
  assert (Hv : ∀ q', (0 ≤ q' ≤ q + 1)%Z →
                     (Z.abs (Z.sgn n * (q' * 2 ^ e)) < 2 ^ 64)%Z).
  { intros q' Hq'. rewrite Z.abs_mul.
    assert (Z.abs (Z.sgn n) ≤ 1)%Z by (destruct n; cbn; lia).
    assert (0 ≤ q' * 2 ^ e ≤ 2 ^ 63 + 2 ^ 11)%Z by nia.
    rewrite (Z.abs_eq (q' * 2 ^ e)) by lia. nia. }
  destruct (_ || _); apply Hv; lia.
Qed.

Lemma calls_app (self : S3ProgressPercentage) (l1 l2 : list Z) :
  Progress.calls self (l1 ++ l2)%list = Progress.calls (Progress.calls self l1) l2.
Proof.
  revert self. induction l1 as [|a l1 IH]; intros self; simpl; [reflexivity|].
  apply IH.
Qed.

Lemma calls_fields (self : S3ProgressPercentage) (amounts : list Z) :
  _seen_so_far (Progress.calls self amounts)
  = (_seen_so_far self + Progress.sum amounts)%Z
  ∧ _filename (Progress.calls self amounts) = _filename self
  ∧ _size (Progress.calls self amounts) = _size self.
Proof.
  revert self.
  induction amounts as [|a rest IH]; intros self;
    cbn [Progress.calls Progress.sum fold_right].
  - split; [lia|split; reflexivity].
  - destruct (IH (fst (Progress.call self a))) as (Hs & Hf & Hz).
    rewrite Hs, Hf, Hz. fold (Progress.sum rest). simpl.
    split; [lia|split; reflexivity].
Qed.

(** C10.  After the calls with amounts a_1 .. a_n on a fresh
    [S3ProgressPercentage] the counter [_seen_so_far] is a_1 + ... + a_n
    (on any object: its former value plus that sum), a call with a
    non-negative amount never lowers it, a call that raises still
    counts, and no call changes [_filename] or [_size]. *)
Theorem progress_counter_sums :
  (∀ (self : S3ProgressPercentage) (amounts : list Z),
     _seen_so_far (Progress.calls self amounts)
     = (_seen_so_far self + Progress.sum amounts)%Z
     ∧ _filename (Progress.calls self amounts) = _filename self
     ∧ _size (Progress.calls self amounts) = _size self)
  ∧ (∀ (fs : FileSystem) (filename : string) (self : S3ProgressPercentage)
       (amounts : list Z),
       Progress.init fs filename = Ok self →
       _seen_so_far (Progress.calls self amounts) = Progress.sum amounts)
  ∧ (∀ (self : S3ProgressPercentage) (amounts : list Z) (a : Z),
       (0 ≤ a)%Z →
       (_seen_so_far (Progress.calls self amounts)
        ≤ _seen_so_far (Progress.calls self (amounts ++ [a])%list))%Z)
  ∧ (∀ (self : S3ProgressPercentage) (a : Z),
       _seen_so_far (fst (Progress.call self a)) = (_seen_so_far self + a)%Z
       ∧ _filename (fst (Progress.call self a)) = _filename self
       ∧ _size (fst (Progress.call self a)) = _size self).
Proof.
  split; [exact calls_fields|]. split; [|split].
  - intros fs filename self amounts H.
    destruct (calls_fields self amounts) as (Hs & _). rewrite Hs.
    unfold Progress.init in H. destruct (getsize fs filename); [|discriminate].
    injection H as <-. simpl. lia.
  - intros self amounts a Ha. rewrite calls_app. simpl. lia.
  - intros self a. simpl. repeat split.
Qed.

Lemma progress_counter_sums_witness :
  _seen_so_far
    (Progress.calls (mkS3ProgressPercentage "/cache/h1" 10 0) [4; 6]%Z) = 10%Z
  ∧ (_seen_so_far (Progress.calls (mkS3ProgressPercentage "/cache/h1" 10 0) [4]%Z)
     ≤ _seen_so_far
         (Progress.calls (mkS3ProgressPercentage "/cache/h1" 10 0)
                         ([4%Z] ++ [6%Z])%list))%Z.
Proof.
  split.
  - apply (proj1 (proj2 progress_counter_sums) Sample.fs "/cache/h1"
             (mkS3ProgressPercentage "/cache/h1" 10 0) [4; 6]%Z).
    reflexivity.
  - apply (proj1 (proj2 (proj2 progress_counter_sums))
             (mkS3ProgressPercentage "/cache/h1" 10 0) [4]%Z 6%Z).
    lia.
Defined.

(** ** The existence probe *)

Lemma probe_exists_false (resp : head_response) :
  probe_exists resp = Ok false
  ↔ ∃ code, resp = HeadClientError code ∧ PyStr.to_int code = Some 404%Z.
Proof.
  unfold probe_exists. split.
  - destruct resp as [|code|e]; try discriminate.
    destruct (PyStr.to_int code) as [n|] eqn:E; [|discriminate].
    destruct (Z.eqb_spec n 404) as [->|]; [|discriminate].
    intros _. now exists code.
  - intros (code & -> & ->). reflexivity.
Qed.

Lemma probe_exists_other_code (code : string) (n : Z) :
  PyStr.to_int code = Some n → n ≠ 404%Z →
  probe_exists (HeadClientError code) = Ok true.
Proof.
  intros E Hn. unfold probe_exists. rewrite E.
  destruct (Z.eqb_spec n 404); [contradiction|reflexivity].
Qed.

Lemma probe_exists_bad_code (code : string) :
  PyStr.to_int code = None →
  probe_exists (HeadClientError code) = Raise ValueError.
Proof. intros E. unfold probe_exists. now rewrite E. Qed.

(** C5 (as the code has it).  [AWSRemoteStorage.check_storage_exists]
    returns [False] exactly when the bucket head request raises a
    [ClientError] whose code [int] reads as 404.  A [ClientError] whose
    code [int] reads as any other integer is answered with [True]; only
    an exception that is not a [ClientError], and the [ValueError] of a
    code that [int] does not read, reach the caller. *)
Theorem check_storage_exists_cases
    {Remote : Type} (client : S3Client Remote)
    (self : AWSRemoteStorage) (r : Remote) :
  (check_storage_exists client self r = Ok false
   ↔ ∃ code, head_bucket client r (bucket_name self) = HeadClientError code
             ∧ PyStr.to_int code = Some 404%Z)
  ∧ (head_bucket client r (bucket_name self) = HeadFound →
     check_storage_exists client self r = Ok true)
  ∧ (∀ code n,
       head_bucket client r (bucket_name self) = HeadClientError code →
       PyStr.to_int code = Some n → n ≠ 404%Z →
       check_storage_exists client self r = Ok true)
  ∧ (∀ code,
       head_bucket client r (bucket_name self) = HeadClientError code →
       PyStr.to_int code = None →
       check_storage_exists client self r = Raise ValueError)
  ∧ (∀ e,
       head_bucket client r (bucket_name self) = HeadRaises e →
       check_storage_exists client self r = Raise e).
Proof.
  unfold check_storage_exists. split; [apply probe_exists_false|].
  split; [now intros ->|]. split; [|split].
  - intros code n -> E Hn. exact (probe_exists_other_code code n E Hn).
  - intros code -> E. exact (probe_exists_bad_code code E).
  - now intros e ->.
Qed.

Lemma check_storage_exists_cases_witness :
  check_storage_exists MemS3.client Sample.self (MemS3.empty "b") = Ok true
  ∧ check_storage_exists MemS3.client Sample.self (MemS3.mk ∅ ∅ {["b"]} false)
    = Ok true
  ∧ check_storage_exists MemS3.client Sample.self (MemS3.mk ∅ ∅ ∅ true)
    = Raise (SdkError "EndpointConnectionError")
  ∧ check_storage_exists MemS3.client Sample.self (MemS3.mk ∅ ∅ ∅ false)
    = Ok false.
Proof.
  split; [|split; [|split]]; cycle 3.
  { apply (proj2 (proj1 (check_storage_exists_cases MemS3.client Sample.self
                           (MemS3.mk ∅ ∅ ∅ false)))).
    exists "404". split; reflexivity. }
  - apply (proj1 (proj2 (check_storage_exists_cases MemS3.client Sample.self
                           (MemS3.empty "b")))).
    reflexivity.
  - apply (proj1 (proj2 (proj2 (check_storage_exists_cases MemS3.client
             Sample.self (MemS3.mk ∅ ∅ {["b"]} false)))) "403" 403%Z);
      [reflexivity|reflexivity|lia].
  - apply (proj2 (proj2 (proj2 (proj2 (check_storage_exists_cases MemS3.client
             Sample.self (MemS3.mk ∅ ∅ ∅ true)))))).
    reflexivity.
Defined.

(** C5 as stated fails: a bucket head request refused with code 403 is
    not raised to the caller but answered with [True]. *)
Lemma check_storage_exists_403_is_true :
  head_bucket MemS3.client (MemS3.mk ∅ ∅ {["b"]} false) (bucket_name Sample.self)
  = HeadClientError "403"
  ∧ check_storage_exists MemS3.client Sample.self (MemS3.mk ∅ ∅ {["b"]} false)
    = Ok true.
Proof. split; reflexivity. Qed.

(** ** The upload loop *)

Section UploadLoop.

Context {Remote : Type} (client : S3Client Remote).
Variables (self : AWSRemoteStorage) (local : LocalStorage) (fs : FileSystem).

Abbreviation probe r sha256 :=
  (probe_exists
     (head_object client r (bucket_name self) (s3_key self local sha256))).

Abbreviation the_transfer sha256 :=
  (mkTransfer (hash_to_file local sha256) (bucket_name self)
              (s3_key self local sha256)).

Lemma upload_entry_present (sha256 : string) (r : Remote) :
  probe r sha256 = Ok true →
  upload_entry client self local fs sha256 r = ([], Ok r).
Proof. unfold upload_entry. now intros ->. Qed.

Lemma upload_entry_raises (sha256 : string) (r : Remote) (e : exn) :
  probe r sha256 = Raise e →
  upload_entry client self local fs sha256 r = ([], Raise e).
Proof. unfold upload_entry. now intros ->. Qed.

Lemma upload_entry_absent (sha256 : string) (r : Remote) (size : Z) :
  probe r sha256 = Ok false →
  getsize fs (hash_to_file local sha256) = Some size →
  upload_entry client self local fs sha256 r
  = ([the_transfer sha256],
     upload_file client r (hash_to_file local sha256) (bucket_name self)
                 (s3_key self local sha256)).
Proof.
  unfold upload_entry, Progress.init. now intros -> ->.
Qed.

Lemma upload_loop_app (pre post : list string) (r : Remote) :
  upload_loop client self local fs (pre ++ post)%list r
  = match upload_loop client self local fs pre r with
    | (ts, Ok r1) =>
        ((ts ++ fst (upload_loop client self local fs post r1))%list,
         snd (upload_loop client self local fs post r1))
    | (ts, Raise e) => (ts, Raise e)
    end.
Proof.
  revert r. induction pre as [|h pre IH]; intros r; cbn [app upload_loop].
  - now destruct (upload_loop client self local fs post r).
  - destruct (upload_entry client self local fs h r) as [ts [r'|e]];
      [|reflexivity].
    rewrite IH.
    destruct (upload_loop client self local fs pre r') as [ts' [r1|e]];
      [|reflexivity].
    destruct (upload_loop client self local fs post r1) as [ts2 out].
    cbn [fst snd]. now rewrite app_assoc.
Qed.

Lemma upload_loop_cons (h : string) (rest : list string) (r : Remote) :
  upload_loop client self local fs (h :: rest) r
  = match upload_entry client self local fs h r with
    | (ts, Ok r1) =>
        ((ts ++ fst (upload_loop client self local fs rest r1))%list,
         snd (upload_loop client self local fs rest r1))
    | (ts, Raise e) => (ts, Raise e)
    end.
Proof.
  cbn [upload_loop].
  destruct (upload_entry client self local fs h r) as [ts [r1|e]];
    [|reflexivity].
  now destruct (upload_loop client self local fs rest r1).
Qed.

(** An entry in the middle of the manifest, in terms of what its own
    loop body does in the state the entries before it have left. *)
Lemma upload_loop_middle (pre : list string) (h : string) (rest : list string)
    (r r1 : Remote) (ts : list transfer) :
  upload_loop client self local fs pre r = (ts, Ok r1) →
  upload_loop client self local fs (pre ++ h :: rest)%list r
  = match upload_entry client self local fs h r1 with
    | (ts1, Ok r2) =>
        ((ts ++ ts1 ++ fst (upload_loop client self local fs rest r2))%list,
         snd (upload_loop client self local fs rest r2))
    | (ts1, Raise e) => ((ts ++ ts1)%list, Raise e)
    end.
Proof.
  intros H. rewrite upload_loop_app, H, upload_loop_cons.
  now destruct (upload_entry client self local fs h r1) as [ts1 [r2|e]].
Qed.

End UploadLoop.

(** C2.  An entry whose head-object probe fails with code 404 is
    uploaded: the loop body starts exactly one transfer, of the file of
    that entry's hash to that entry's key, and the same holds for the
    entry at any position of the manifest; an entry whose probe succeeds
    starts no transfer and leaves the remote state as it was. *)
Theorem upload_entry_by_probe
    {Remote : Type} (client : S3Client Remote) (self : AWSRemoteStorage)
    (local : LocalStorage) (fs : FileSystem)
    (pre : list string) (sha256 : string) (rest : list string)
    (r r1 : Remote) (ts : list transfer) :
  upload_loop client self local fs pre r = (ts, Ok r1) →
  (∀ code size,
     head_object client r1 (bucket_name self) (s3_key self local sha256)
     = HeadClientError code →
     PyStr.to_int code = Some 404%Z →
     getsize fs (hash_to_file local sha256) = Some size →
     let t := mkTransfer (hash_to_file local sha256) (bucket_name self)
                         (s3_key self local sha256) in
     let sent := upload_file client r1 (hash_to_file local sha256)
                             (bucket_name self) (s3_key self local sha256) in
     upload_entry client self local fs sha256 r1 = ([t], sent)
     ∧ upload_loop client self local fs (pre ++ sha256 :: rest)%list r
       = match sent with
         | Ok r2 =>
             ((ts ++ t :: fst (upload_loop client self local fs rest r2))%list,
              snd (upload_loop client self local fs rest r2))
         | Raise e => ((ts ++ [t])%list, Raise e)
         end)
  ∧ (head_object client r1 (bucket_name self) (s3_key self local sha256)
     = HeadFound →
     upload_entry client self local fs sha256 r1 = ([], Ok r1)
     ∧ upload_loop client self local fs (pre ++ sha256 :: rest)%list r
       = ((ts ++ fst (upload_loop client self local fs rest r1))%list,
          snd (upload_loop client self local fs rest r1))).
Proof.
  intros Hpre. split.
  - intros code size Hhead Hcode Hsize t sent.
    assert (He : upload_entry client self local fs sha256 r1 = ([t], sent)).
    { apply (upload_entry_absent client self local fs sha256 r1 size); [|exact Hsize].
      apply probe_exists_false. now exists code. }
    split; [exact He|].
    rewrite (upload_loop_middle client self local fs pre sha256 rest r r1 ts Hpre), He.
    now destruct sent.
  - intros Hhead.
    assert (He : upload_entry client self local fs sha256 r1 = ([], Ok r1)).
    { apply upload_entry_present. now rewrite Hhead. }
    split; [exact He|].
    now rewrite (upload_loop_middle client self local fs pre sha256 rest r r1 ts Hpre), He.
Qed.

Lemma upload_entry_by_probe_witness :
  upload_entry MemS3.client Sample.self Sample.local Sample.fs "h2" (MemS3.empty "b")
  = ([mkTransfer "/cache/h2" "b" "p/data/h2"],
     upload_file MemS3.client (MemS3.empty "b") "/cache/h2" "b" "p/data/h2")
  ∧ upload_entry MemS3.client Sample.self Sample.local Sample.fs "h2"
      (MemS3.mk {["b"]} {[("b", "p/data/h2") := "/cache/h2"]} ∅ false)
    = ([], Ok (MemS3.mk {["b"]} {[("b", "p/data/h2") := "/cache/h2"]} ∅ false)).
Proof.
  split.
  - apply (proj1 (upload_entry_by_probe MemS3.client Sample.self Sample.local
                    Sample.fs [] "h2" [] (MemS3.empty "b") (MemS3.empty "b") []
                    eq_refl) "404" 10%Z eq_refl eq_refl eq_refl).
  - apply (proj2 (upload_entry_by_probe MemS3.client Sample.self Sample.local
                    Sample.fs [] "h2" []
                    (MemS3.mk {["b"]} {[("b", "p/data/h2") := "/cache/h2"]} ∅ false)
                    (MemS3.mk {["b"]} {[("b", "p/data/h2") := "/cache/h2"]} ∅ false)
                    [] eq_refl)).
    vm_compute. reflexivity.
Defined.

(** C1 (as the code has it).  A head-object probe that raises a
    [ClientError] whose code [int] reads as an integer other than 404,
    such as 403, does not stop the sync: the entry is taken as present,
    no transfer is started for it, and the loop goes on with the
    entries after it.  A probe that raises something that is not a
    [ClientError], or a [ClientError] whose code [int] does not read
    ([ValueError]), stops the sync at its entry with that error: no
    transfer is started for that entry or for any entry after it, and
    the transfers of the entries before it stand. *)
Theorem upload_probe_failure
    {Remote : Type} (client : S3Client Remote) (self : AWSRemoteStorage)
    (local : LocalStorage) (fs : FileSystem)
    (pre : list string) (sha256 : string) (rest : list string)
    (r r1 : Remote) (ts : list transfer) :
  upload_loop client self local fs pre r = (ts, Ok r1) →
  (∀ code n,
     head_object client r1 (bucket_name self) (s3_key self local sha256)
     = HeadClientError code →
     PyStr.to_int code = Some n → n ≠ 404%Z →
     upload_entry client self local fs sha256 r1 = ([], Ok r1)
     ∧ upload_loop client self local fs (pre ++ sha256 :: rest)%list r
       = ((ts ++ fst (upload_loop client self local fs rest r1))%list,
          snd (upload_loop client self local fs rest r1)))
  ∧ (∀ e,
       head_object client r1 (bucket_name self) (s3_key self local sha256)
       = HeadRaises e →
       upload_loop client self local fs (pre ++ sha256 :: rest)%list r
       = (ts, Raise e))
  ∧ (∀ code,
       head_object client r1 (bucket_name self) (s3_key self local sha256)
       = HeadClientError code →
       PyStr.to_int code = None →
       upload_loop client self local fs (pre ++ sha256 :: rest)%list r
       = (ts, Raise ValueError)).
Proof.
  intros Hpre.
  pose proof (upload_loop_middle client self local fs pre sha256 rest r r1 ts Hpre)
    as Hmid.
  split; [|split].
  - intros code n Hhead Hcode Hn.
    assert (He : upload_entry client self local fs sha256 r1 = ([], Ok r1)).
    { apply upload_entry_present. rewrite Hhead.
      exact (probe_exists_other_code code n Hcode Hn). }
    split; [exact He|]. now rewrite Hmid, He.
  - intros e Hhead. rewrite Hmid.
    rewrite (upload_entry_raises client self local fs sha256 r1 e)
      by now rewrite Hhead.
    now rewrite app_nil_r.
  - intros code Hhead Hcode. rewrite Hmid.
    rewrite (upload_entry_raises client self local fs sha256 r1 ValueError)
      by (rewrite Hhead; exact (probe_exists_bad_code code Hcode)).
    now rewrite app_nil_r.
Qed.

Lemma upload_probe_failure_witness :
  upload_entry MemS3.client Sample.self Sample.local Sample.fs "h1" Sample.denied
  = ([], Ok Sample.denied)
  ∧ upload_loop MemS3.client Sample.self Sample.local Sample.fs
      ([] ++ "h1" :: ["h2"])%list (MemS3.mk {["b"]} ∅ ∅ true)
    = ([], Raise (SdkError "EndpointConnectionError"))
  ∧ upload_loop
      (mkS3Client unit (λ _ _, HeadFound)
                  (λ _ _ _, HeadClientError "AccessDenied") (λ r _ _ _, Ok r))
      Sample.self Sample.local Sample.fs ([] ++ "h1" :: ["h2"])%list tt
    = ([], Raise ValueError).
Proof.
  split; [|split]; cycle 2.
  { apply (proj2 (proj2 (upload_probe_failure
                    (mkS3Client unit (λ _ _, HeadFound)
                                (λ _ _ _, HeadClientError "AccessDenied")
                                (λ r _ _ _, Ok r))
                    Sample.self Sample.local Sample.fs [] "h1" ["h2"] tt tt []
                    eq_refl)) "AccessDenied"); reflexivity. }
  - apply (proj1 (upload_probe_failure MemS3.client Sample.self Sample.local
                    Sample.fs [] "h1" ["h2"] Sample.denied Sample.denied []
                    eq_refl) "403" 403%Z); [reflexivity|reflexivity|lia].
  - apply (proj1 (proj2 (upload_probe_failure MemS3.client Sample.self
                    Sample.local Sample.fs [] "h1" ["h2"]
                    (MemS3.mk {["b"]} ∅ ∅ true) (MemS3.mk {["b"]} ∅ ∅ true) []
                    eq_refl))).
    reflexivity.
Defined.

(** C1 as stated fails: the probe of the first entry is refused with
    code 403, yet the sync ends without an error, having skipped that
    entry and uploaded the entry after it. *)
Lemma upload_403_does_not_abort :
  head_object MemS3.client Sample.denied (bucket_name Sample.self)
              (s3_key Sample.self Sample.local "h1")
  = HeadClientError "403"
  ∧ ∃ r', upload MemS3.client Sample.self Sample.local Sample.fs
                 (Sample.cfg ["h1"; "h2"]) Sample.denied
          = ([mkTransfer "/cache/h2" "b" "p/data/h2"], Ok r').
Proof. split; [reflexivity|]. eexists. vm_compute. reflexivity. Qed.

(** ** Re-running the upload *)

Lemma mem_s3_read_after_write : read_after_write MemS3.client.
Proof.
  intros r r' file bucket key. cbn [upload_file MemS3.client].
  unfold MemS3.upload_file.
  destruct (MemS3.unreachable r) eqn:Hu; [discriminate|].
  destruct (decide (bucket ∈ MemS3.buckets r)); [|discriminate].
  intros [= <-]. cbn [head_object MemS3.client]. unfold MemS3.head_object.
  cbn [MemS3.unreachable MemS3.forbidden MemS3.objects]. rewrite Hu. split.
  - destruct (decide (key ∈ MemS3.forbidden r)); [reflexivity|].
    now rewrite lookup_insert_eq.
  - intros key'. destruct (decide (key' ∈ MemS3.forbidden r)); [tauto|].
    destruct (decide (key = key')) as [->|ne].
    + now rewrite lookup_insert_eq.
    + rewrite lookup_insert_ne by congruence. tauto.
Qed.

Section Rerun.

Context {Remote : Type} (client : S3Client Remote).
Variables (self : AWSRemoteStorage) (local : LocalStorage) (fs : FileSystem).
Hypothesis consistent : read_after_write client.

Abbreviation probe_key r key :=
  (probe_exists (head_object client r (bucket_name self) key)).
Abbreviation loop := (upload_loop client self local fs).
Abbreviation entry := (upload_entry client self local fs).

(** The three ways the loop body can end. *)
Lemma upload_entry_cases (sha256 : string) (r : Remote) :
  (entry sha256 r = ([], Ok r)
   ∧ probe_key r (s3_key self local sha256) = Ok true)
  ∨ (∃ e, entry sha256 r = ([], Raise e))
  ∨ (probe_key r (s3_key self local sha256) = Ok false
     ∧ entry sha256 r
       = ([mkTransfer (hash_to_file local sha256) (bucket_name self)
                      (s3_key self local sha256)],
          upload_file client r (hash_to_file local sha256) (bucket_name self)
                      (s3_key self local sha256))).
Proof.
  unfold upload_entry.
  destruct (probe_key r (s3_key self local sha256)) as [[|]|e].
  - left. now split.
  - destruct (Progress.init fs (hash_to_file local sha256)) as [cb|e].
    + right. right. now split.
    + right. left. now exists e.
  - right. left. now exists e.
Qed.

Lemma upload_loop_keeps_present (hashes : list string) (r r' : Remote)
    (ts : list transfer) (key : string) :
  loop hashes r = (ts, Ok r') →
  probe_key r key = Ok true → probe_key r' key = Ok true.
Proof.
  revert r ts. induction hashes as [|h rest IH]; intros r ts.
  - cbn [upload_loop]. now intros [= _ <-].
  - rewrite upload_loop_cons.
    destruct (upload_entry_cases h r) as [[He _]|[[e He]|[_ He]]]; rewrite He.
    + destruct (loop rest r) as [ts' out] eqn:E. cbn [fst snd].
      intros [= _ ->]. exact (IH r ts' E).
    + discriminate.
    + destruct (upload_file client r _ _ _) as [r1|e] eqn:Eu; [|discriminate].
      destruct (loop rest r1) as [ts' out] eqn:E. cbn [fst snd].
      intros [= _ ->] Hk. apply (IH r1 ts' E).
      exact (proj2 (consistent _ _ _ _ _ Eu) key Hk).
Qed.

Lemma upload_loop_all_present (hashes : list string) (r r' : Remote)
    (ts : list transfer) :
  loop hashes r = (ts, Ok r') →
  Forall (λ h, probe_key r' (s3_key self local h) = Ok true) hashes.
Proof.
  revert r ts. induction hashes as [|h rest IH]; intros r ts; [constructor|].
  rewrite upload_loop_cons.
  destruct (upload_entry_cases h r) as [[He Hp]|[[e He]|[_ He]]]; rewrite He.
  - destruct (loop rest r) as [ts' out] eqn:E. cbn [fst snd].
    intros [= _ ->]. constructor; [|exact (IH r ts' E)].
    exact (upload_loop_keeps_present rest r r' ts' _ E Hp).
  - discriminate.
  - destruct (upload_file client r _ _ _) as [r1|e] eqn:Eu; [|discriminate].
    destruct (loop rest r1) as [ts' out] eqn:E. cbn [fst snd].
    intros [= _ ->]. constructor; [|exact (IH r1 ts' E)].
    apply (upload_loop_keeps_present rest r1 r' ts' _ E).
    exact (proj1 (consistent _ _ _ _ _ Eu)).
Qed.

Lemma upload_loop_nothing_to_do (hashes : list string) (r : Remote) :
  Forall (λ h, probe_key r (s3_key self local h) = Ok true) hashes →
  loop hashes r = ([], Ok r).
Proof.
  induction 1 as [|h rest Hh _ IH]; [reflexivity|].
  rewrite upload_loop_cons.
  rewrite (upload_entry_present client self local fs h r Hh).
  now rewrite IH.
Qed.

Lemma upload_loop_present_not_sent (hashes : list string) (r : Remote)
    (key : string) :
  probe_key r key = Ok true →
  transfers_to key (fst (loop hashes r)) = 0.
Proof.
  revert r. induction hashes as [|h rest IH]; intros r Hk; [reflexivity|].
  rewrite upload_loop_cons.
  destruct (upload_entry_cases h r) as [[He _]|[[e He]|[Hp He]]]; rewrite He.
  - cbn [fst app]. exact (IH r Hk).
  - reflexivity.
  - assert (Hne : String.eqb (s3_key self local h) key = false).
    { apply String.eqb_neq. intros E. rewrite <- E in Hk. congruence. }
    destruct (upload_file client r _ _ _) as [r1|e] eqn:Eu.
    + cbn [fst app]. unfold transfers_to. cbn [List.filter t_key].
      rewrite Hne. apply (IH r1).
      exact (proj2 (consistent _ _ _ _ _ Eu) key Hk).
    + cbn [fst]. unfold transfers_to. cbn [List.filter t_key].
      now rewrite Hne.
Qed.

Lemma upload_loop_one_transfer_per_key (hashes : list string) (r : Remote)
    (key : string) :
  (transfers_to key (fst (loop hashes r)) ≤ 1)%nat.
Proof.
  revert r. induction hashes as [|h rest IH]; intros r; [cbn; lia|].
  rewrite upload_loop_cons.
  destruct (upload_entry_cases h r) as [[He _]|[[e He]|[Hp He]]]; rewrite He.
  - cbn [fst app]. exact (IH r).
  - cbn. lia.
  - destruct (upload_file client r _ _ _) as [r1|e] eqn:Eu.
    + cbn [fst app]. unfold transfers_to. cbn [List.filter t_key].
      destruct (String.eqb_spec (s3_key self local h) key) as [Heq|ne].
      * subst key. cbn [length].
        pose proof (upload_loop_present_not_sent rest r1 (s3_key self local h)
                      (proj1 (consistent _ _ _ _ _ Eu))) as H0.
        unfold transfers_to in H0. rewrite H0. lia.
      * exact (IH r1).
    + cbn [fst]. unfold transfers_to. cbn [List.filter t_key].
      destruct (String.eqb _ _); cbn; lia.
Qed.

End Rerun.

(** C3.  With a remote service that shows an uploaded object to the
    next probe, a second run of [AWSRemoteStorage.upload] on the same
    manifest, started in the remote state the first run has left,
    starts no transfer: the probe of every entry's key finds it and the
    entry is skipped, and the remote state stays as it is. *)
Theorem upload_twice_transfers_nothing
    {Remote : Type} (client : S3Client Remote) (self : AWSRemoteStorage)
    (local : LocalStorage) (fs : FileSystem) (cfg : Config)
    (r r' : Remote) (ts : list transfer) :
  read_after_write client →
  upload client self local fs cfg r = (ts, Ok r') →
  upload client self local fs cfg r' = ([], Ok r')
  ∧ ∃ hashes, all_sha256 cfg = Ok hashes
      ∧ Forall (λ h, probe_exists (head_object client r' (bucket_name self)
                                     (s3_key self local h)) = Ok true) hashes.
Proof.
  intros Hraw. unfold upload.
  destruct (all_sha256 cfg) as [hashes|e]; [|discriminate].
  intros H1.
  pose proof (upload_loop_all_present client self local fs Hraw hashes r r' ts H1)
    as Hall.
  split; [|now exists hashes].
  exact (upload_loop_nothing_to_do client self local fs hashes r' Hall).
Qed.

Lemma upload_twice_transfers_nothing_witness :
  upload MemS3.client Sample.self Sample.local Sample.fs
         (Sample.cfg ["h1"; "h2"; "h1"]) Sample.synced
  = ([], Ok Sample.synced).
Proof.
  apply (proj1 (upload_twice_transfers_nothing MemS3.client Sample.self
                  Sample.local Sample.fs (Sample.cfg ["h1"; "h2"; "h1"])
                  (MemS3.empty "b") Sample.synced
                  [mkTransfer "/cache/h1" "b" "p/data/h1";
                   mkTransfer "/cache/h2" "b" "p/data/h2"]
                  mem_s3_read_after_write
                  ltac:(vm_compute; reflexivity))).
Defined.

(** C4.  The key of an entry is computed from its hash alone, so two
    entries with the same hash have the same key; and with a remote
    service that shows an uploaded object to the next probe, one run of
    [AWSRemoteStorage.upload] starts at most one transfer to any key. *)
Theorem upload_one_transfer_per_key
    {Remote : Type} (client : S3Client Remote) (self : AWSRemoteStorage)
    (local : LocalStorage) (fs : FileSystem) (cfg : Config) (r : Remote) :
  read_after_write client →
  (∀ e1 e2 : gmap string string,
     e1 !! "hash" = e2 !! "hash" →
     s3_key self local <$> (e1 !! "hash") = s3_key self local <$> (e2 !! "hash"))
  ∧ (∀ sha256 : string,
       (transfers_to (s3_key self local sha256)
                     (fst (upload client self local fs cfg r)) ≤ 1)%nat)
  ∧ (∀ key : string,
       (transfers_to key (fst (upload client self local fs cfg r)) ≤ 1)%nat).
Proof.
  intros Hraw.
  assert (Hkey : ∀ key : string,
    (transfers_to key (fst (upload client self local fs cfg r)) ≤ 1)%nat).
  { intros key. unfold upload.
    destruct (all_sha256 cfg) as [hashes|e]; [|cbn; lia].
    exact (upload_loop_one_transfer_per_key client self local fs Hraw hashes r key). }
  split; [|split].
  - now intros e1 e2 ->.
  - intros sha256. apply Hkey.
  - exact Hkey.
Qed.

Lemma upload_one_transfer_per_key_witness :
  (transfers_to (s3_key Sample.self Sample.local "h1")
     (fst (upload MemS3.client Sample.self Sample.local Sample.fs
                  (Sample.cfg ["h1"; "h2"; "h1"]) (MemS3.empty "b"))) ≤ 1)%nat.
Proof.
  apply (proj1 (proj2 (upload_one_transfer_per_key MemS3.client Sample.self
                  Sample.local Sample.fs (Sample.cfg ["h1"; "h2"; "h1"])
                  (MemS3.empty "b") mem_s3_read_after_write)) "h1").
Defined.

(** ** Joining paths *)

Lemma append_cons (c : ascii) (s t : string) :
  String c s ++ t = String c (s ++ t).
Proof. reflexivity. Qed.

Lemma append_empty_l (t : string) : EmptyString ++ t = t.
Proof. reflexivity. Qed.

Lemma length_append (s t : string) :
  String.length (s ++ t) = String.length s + String.length t.
Proof.
  induction s as [|c s IH]; [reflexivity|].
  rewrite append_cons. cbn [String.length]. now rewrite IH.
Qed.

Lemma lstrip_char_length (ch : ascii) (s r : string) (n : nat) :
  PyStr.lstrip_char ch s = (n, r) → n + String.length r = String.length s.
Proof.
  revert n r. induction s as [|c s IH]; intros n r; cbn [PyStr.lstrip_char].
  - now intros [= <- <-].
  - destruct (Ascii.eqb c ch).
    + destruct (PyStr.lstrip_char ch s) as [m q]. intros [= <- <-].
      cbn [String.length plus]. now rewrite (IH m q eq_refl).
    + now intros [= <- <-].
Qed.

Lemma split_not_nil (sep : ascii) (s : string) : PyStr.split sep s ≠ [].
Proof.
  destruct s as [|c s]; cbn [PyStr.split]; [discriminate|].
  destruct (Ascii.eqb c sep); [discriminate|].
  destruct (PyStr.split sep s); discriminate.
Qed.

Lemma join_cons2 (sep x y : string) (l : list string) :
  PyStr.join sep (x :: y :: l) = x ++ sep ++ PyStr.join sep (y :: l).
Proof. reflexivity. Qed.

Lemma join_cons_char (sep : string) (c : ascii) (h : string) (t : list string) :
  PyStr.join sep (String c h :: t) = String c (PyStr.join sep (h :: t)).
Proof. destruct t; reflexivity. Qed.

(** Splitting and joining on the same separator gives the string back. *)
Lemma join_split (sep : ascii) (s : string) :
  PyStr.join (String sep EmptyString) (PyStr.split sep s) = s.
Proof.
  induction s as [|c s IH]; [reflexivity|]. cbn [PyStr.split].
  destruct (Ascii.eqb_spec c sep) as [->|ne].
  - pose proof (split_not_nil sep s) as Hne.
    destruct (PyStr.split sep s) as [|h t]; [contradiction|].
    rewrite join_cons2, IH. reflexivity.
  - pose proof (split_not_nil sep s) as Hne.
    destruct (PyStr.split sep s) as [|h t]; [contradiction|].
    now rewrite join_cons_char, IH.
Qed.

Lemma length_join_cons (sep x : string) (l : list string) :
  String.length (PyStr.join sep (x :: l))
  = String.length x
    + match l with
      | [] => 0
      | _ => String.length sep + String.length (PyStr.join sep l)
      end.
Proof.
  destruct l as [|y l]; [cbn [PyStr.join]; lia|].
  now rewrite join_cons2, !length_append.
Qed.

Lemma length_join_filter (sep : string) (f : string → bool) (l : list string) :
  (String.length (PyStr.join sep (List.filter f l))
   ≤ String.length (PyStr.join sep l))%nat.
Proof.
  induction l as [|x l IH]; [reflexivity|].
  cbn [List.filter]. rewrite (length_join_cons sep x l). destruct (f x).
  - rewrite length_join_cons.
    destruct (List.filter f l) as [|y l'] eqn:E.
    + lia.
    + destruct l as [|z l0]; [discriminate|]. lia.
  - destruct l as [|z l0]; [cbn; lia|]. lia.
Qed.

Lemma length_components (rel : string) :
  (String.length (PyStr.join "/" (PurePosixPath.components rel))
   ≤ String.length rel)%nat.
Proof.
  unfold PurePosixPath.components.
  etransitivity; [apply length_join_filter|].
  now rewrite (join_split "/" rel).
Qed.

Lemma split_no_sep (sep : ascii) (s : string) :
  Forall (λ x, PyStr.contains sep x = false) (PyStr.split sep s).
Proof.
  induction s as [|c s IH]; cbn [PyStr.split]; [now repeat constructor|].
  destruct (Ascii.eqb c sep) eqn:Ec; [now constructor|].
  destruct (PyStr.split sep s) as [|h t]; [now repeat constructor; cbn; rewrite Ec|].
  inversion IH as [|? ? Hh Ht]; subst. constructor; [|exact Ht].
  cbn [PyStr.contains]. now rewrite Ec, Hh.
Qed.

Lemma components_names (rel : string) :
  Forall is_name (PurePosixPath.components rel).
Proof.
  unfold PurePosixPath.components.
  pose proof (split_no_sep "/" rel) as H.
  induction H as [|x l Hx _ IH]; [constructor|]. cbn [List.filter].
  destruct (PurePosixPath.keep x) eqn:K; [|exact IH].
  constructor; [|exact IH]. split; [|exact Hx].
  intros ->. discriminate.
Qed.

Lemma name_append (x y : string) :
  is_name x →
  PyStr.startswith (x ++ y) "/" = false
  ∧ (PyStr.startswith y "/" = false → has_double_slash y = false →
     has_double_slash (x ++ String "/" y) = false).
Proof.
  intros [Hne Hx]. split.
  - destruct x as [|c x]; [contradiction|]. rewrite append_cons.
    cbn [PyStr.contains] in Hx. apply orb_false_iff in Hx as [Hc _].
    cbn [PyStr.startswith]. rewrite Ascii.eqb_sym, Hc. reflexivity.
  - intros Hy Hd. clear Hne. induction x as [|c x IH].
    + rewrite append_empty_l. cbn [has_double_slash]. rewrite Hy, Hd.
      now rewrite andb_false_r.
    + cbn [PyStr.contains] in Hx. apply orb_false_iff in Hx as [Hc Hx].
      rewrite append_cons. cbn [has_double_slash]. rewrite Hc, (IH Hx).
      reflexivity.
Qed.

Lemma name_no_double_slash (x : string) :
  PyStr.contains "/" x = false → has_double_slash x = false.
Proof.
  induction x as [|c x IH]; [reflexivity|]. cbn [PyStr.contains has_double_slash].
  intros H. apply orb_false_iff in H as [Hc Hx]. now rewrite Hc, (IH Hx).
Qed.

Lemma join_names (l : list string) :
  Forall is_name l →
  PyStr.startswith (PyStr.join "/" l) "/" = false
  ∧ has_double_slash (PyStr.join "/" l) = false.
Proof.
  induction 1 as [|x l Hx Hl IH]; [now split|].
  destruct l as [|y l].
  - cbn [PyStr.join]. split.
    + destruct (name_append x EmptyString Hx) as [H _].
      destruct Hx as [Hne _]. destruct x; [contradiction|exact H].
    + apply name_no_double_slash, Hx.
  - rewrite join_cons2. destruct IH as [IH1 IH2].
    destruct (name_append x ("/" ++ PyStr.join "/" (y :: l)) Hx) as [H1 _].
    destruct (name_append x (PyStr.join "/" (y :: l)) Hx) as [_ H2].
    split; [exact H1|]. exact (H2 IH1 IH2).
Qed.

Lemma startswith_slash (s : string) :
  PyStr.startswith s "/" = true → ∃ s', s = String "/" s'.
Proof.
  destruct s as [|c s']; cbn [PyStr.startswith]; [discriminate|].
  rewrite andb_true_r. intros H. apply Ascii.eqb_eq in H as <-. now exists s'.
Qed.

Lemma splitroot_relative (part : string) :
  PyStr.startswith part "/" = false →
  PurePosixPath.splitroot part = (EmptyString, part).
Proof.
  destruct part as [|c p]; [reflexivity|].
  cbn [PyStr.startswith]. rewrite andb_true_r. intros H.
  destruct c as [[] [] [] [] [] [] [] []]; try reflexivity. discriminate H.
Qed.

Lemma splitroot_absolute (p : string) :
  ∃ (rt stripped : string),
    PurePosixPath.splitroot (String "/" p) = (rt, stripped)
    ∧ (rt = "/" ∨ rt = "//")
    ∧ (String.length rt + String.length stripped ≤ S (String.length p))%nat.
Proof.
  unfold PurePosixPath.splitroot.
  destruct (PyStr.lstrip_char "/" (String "/" p)) as [n stripped] eqn:E.
  pose proof (lstrip_char_length "/" _ _ _ E) as Hlen.
  cbn [String.length] in Hlen.
  destruct (Nat.eqb_spec n 2) as [->|ne].
  - exists "//", stripped. split; [reflexivity|]. split; [now right|].
    cbn [String.length]. lia.
  - exists "/", stripped. split; [reflexivity|]. split; [now left|].
    cbn [String.length]. cbn [PyStr.lstrip_char Ascii.eqb Bool.eqb] in E.
    destruct (PyStr.lstrip_char "/" p) as [m q]. injection E as <- <-. lia.
Qed.

Lemma parse_rev_relative (part : string) (before : list string) :
  PyStr.startswith part "/" = false →
  PurePosixPath.parse_rev (part :: before)
  = PurePosixPath.mk
      (PurePosixPath.root (PurePosixPath.parse_rev before))
      (PurePosixPath.parts (PurePosixPath.parse_rev before)
       ++ PurePosixPath.components part)%list.
Proof.
  intros H. destruct part as [|c p].
  - cbn [PurePosixPath.parse_rev].
    change (PurePosixPath.components EmptyString) with (@nil string).
    rewrite app_nil_r. now destruct (PurePosixPath.parse_rev before).
  - cbn [PurePosixPath.parse_rev]. now rewrite (splitroot_relative _ H).
Qed.

Lemma parse_rev_absolute (p : string) (before : list string) :
  PurePosixPath.parse_rev (String "/" p :: before)
  = PurePosixPath.parse_rev [String "/" p].
Proof.
  cbn [PurePosixPath.parse_rev].
  destruct (splitroot_absolute p) as (rt & stripped & -> & [->| ->] & _);
    reflexivity.
Qed.

(** The string of a path made of relative segments. *)
Lemma make_relative (prefix rel : string) :
  PyStr.startswith prefix "/" = false →
  PyStr.startswith rel "/" = false →
  PurePosixPath.make [prefix; rel]
  = PurePosixPath.mk EmptyString
      (PurePosixPath.components prefix ++ PurePosixPath.components rel)%list.
Proof.
  intros Hp Hr. unfold PurePosixPath.make. cbn [rev app].
  rewrite (parse_rev_relative rel [prefix] Hr).
  rewrite (parse_rev_relative prefix [] Hp). reflexivity.
Qed.

Lemma make_absolute (prefix rel : string) :
  PyStr.startswith rel "/" = true →
  PurePosixPath.make [prefix; rel] = PurePosixPath.make [rel].
Proof.
  intros H. apply startswith_slash in H as [p ->].
  unfold PurePosixPath.make. cbn [rev app]. apply parse_rev_absolute.
Qed.

Lemma str_absolute (rel : string) :
  PyStr.startswith rel "/" = true →
  PyStr.startswith (PurePosixPath.str (PurePosixPath.make [rel])) "/" = true
  ∧ (String.length (PurePosixPath.str (PurePosixPath.make [rel]))
     ≤ String.length rel)%nat.
Proof.
  intros H. apply startswith_slash in H as [p ->].
  unfold PurePosixPath.make. cbn [rev app PurePosixPath.parse_rev].
  destruct (splitroot_absolute p) as (rt & stripped & -> & Hrt & Hlen).
  pose proof (length_components stripped) as Hc.
  unfold PurePosixPath.str.
  destruct Hrt as [-> | ->]; cbn [PurePosixPath.root PurePosixPath.parts];
    rewrite !append_cons, ?append_empty_l; cbn [PyStr.startswith String.length] in *;
    (split; [reflexivity|lia]).
Qed.

Lemma upload_loop_transfers
    {Remote : Type} (client : S3Client Remote) (self : AWSRemoteStorage)
    (local : LocalStorage) (fs : FileSystem) (hashes : list string)
    (r : Remote) (t : transfer) :
  t ∈ fst (upload_loop client self local fs hashes r) →
  ∃ h, h ∈ hashes
       ∧ t = mkTransfer (hash_to_file local h) (bucket_name self)
                        (s3_key self local h).
Proof.
  revert r. induction hashes as [|h rest IH]; intros r.
  - cbn. intros H. inversion H.
  - rewrite upload_loop_cons.
    destruct (upload_entry_cases client self local fs h r)
      as [[He _]|[[e He]|[_ He]]]; rewrite He.
    + cbn [fst app]. intros H. destruct (IH r H) as (h' & Hin & ->).
      exists h'. split; [now right|reflexivity].
    + cbn. intros H. inversion H.
    + destruct (upload_file client r (hash_to_file local h) (bucket_name self)
                  (s3_key self local h)) as [r1|e].
      * cbn [fst app]. intros H.
        apply elem_of_cons in H as [->|H].
        -- exists h. split; [now left|reflexivity].
        -- destruct (IH r1 H) as (h' & Hin & ->).
           exists h'. split; [now right|reflexivity].
      * cbn [fst]. intros H. apply elem_of_cons in H as [->|H]; [|inversion H].
        exists h. split; [now left|reflexivity].
Qed.

(** C7.  The key of an entry is the POSIX join of the handle's prefix
    and the store's remote path: every transfer of [upload] goes to that
    key; for the prefix [data/v1/] and the path [ab/cd1234.bin] it is
    exactly [data/v1/ab/cd1234.bin]; and whenever neither the prefix nor
    the path begins with a slash, the key is the slash-separated list of
    their components, with no slash at the start and no two slashes in
    a row.  The join has no parameter for the host system. *)
Theorem s3_key_posix_join (self : AWSRemoteStorage) (local : LocalStorage) :
  (∀ sha256 : string,
     path_prefix self = "data/v1/" →
     hash_to_remote_path local sha256 = "ab/cd1234.bin" →
     s3_key self local sha256 = "data/v1/ab/cd1234.bin")
  ∧ (∀ sha256 : string,
       PyStr.startswith (path_prefix self) "/" = false →
       PyStr.startswith (hash_to_remote_path local sha256) "/" = false →
       s3_key self local sha256
       = PurePosixPath.str
           (PurePosixPath.mk EmptyString
              (PurePosixPath.components (path_prefix self)
               ++ PurePosixPath.components (hash_to_remote_path local sha256))%list)
       ∧ PyStr.startswith (s3_key self local sha256) "/" = false
       ∧ has_double_slash (s3_key self local sha256) = false)
  ∧ (∀ (Remote : Type) (client : S3Client Remote) (fs : FileSystem)
       (cfg : Config) (r : Remote) (t : transfer),
       t ∈ fst (upload client self local fs cfg r) →
       ∃ hashes sha256,
         all_sha256 cfg = Ok hashes ∧ sha256 ∈ hashes
         ∧ t_file t = hash_to_file local sha256
         ∧ t_bucket t = bucket_name self
         ∧ t_key t = PurePosixPath.str
                       (PurePosixPath.make
                          [path_prefix self; hash_to_remote_path local sha256])).
Proof.
  split; [|split].
  - intros sha256 Hp Hr. unfold s3_key. now rewrite Hp, Hr.
  - intros sha256 Hp Hr. unfold s3_key.
    rewrite (make_relative _ _ Hp Hr). split; [reflexivity|].
    pose proof (components_names (path_prefix self)) as N1.
    pose proof (components_names (hash_to_remote_path local sha256)) as N2.
    pose proof (join_names _ (Forall_app_2 _ _ _ N1 N2)) as [J1 J2].
    unfold PurePosixPath.str. cbn [PurePosixPath.root PurePosixPath.parts].
    rewrite append_empty_l.
    destruct (PyStr.join "/" _) as [|c s]; [now split|now split].
  - intros Remote client fs cfg r t. unfold upload.
    destruct (all_sha256 cfg) as [hashes|e]; [|cbn; intros H; inversion H].
    intros H.
    destruct (upload_loop_transfers client self local fs hashes r t H)
      as (h & Hin & ->).
    exists hashes, h. now repeat split.
Qed.

Lemma s3_key_posix_join_witness :
  s3_key Sample.versioned Sample.binned "cd1234" = "data/v1/ab/cd1234.bin"
  ∧ PyStr.startswith (s3_key Sample.versioned Sample.binned "cd1234") "/" = false
  ∧ has_double_slash (s3_key Sample.versioned Sample.binned "cd1234") = false.
Proof.
  split.
  - apply (proj1 (s3_key_posix_join Sample.versioned Sample.binned) "cd1234");
      reflexivity.
  - apply (proj1 (proj2 (s3_key_posix_join Sample.versioned Sample.binned))
             "cd1234"); reflexivity.
Defined.

(** C9.  When the store's remote path for a hash begins with a slash,
    the join drops the prefix: the key is the path made of that remote
    path alone (the remote path itself when it is already in normal
    form), it begins with a slash, and it is not the prefix, a slash
    and the remote path put together. *)
Theorem absolute_remote_path_drops_prefix
    (self : AWSRemoteStorage) (local : LocalStorage) (sha256 : string) :
  PyStr.startswith (hash_to_remote_path local sha256) "/" = true →
  s3_key self local sha256
  = PurePosixPath.str (PurePosixPath.make [hash_to_remote_path local sha256])
  ∧ (PurePosixPath.str (PurePosixPath.make [hash_to_remote_path local sha256])
     = hash_to_remote_path local sha256 →
     s3_key self local sha256 = hash_to_remote_path local sha256)
  ∧ PyStr.startswith (s3_key self local sha256) "/" = true
  ∧ s3_key self local sha256
    ≠ path_prefix self ++ "/" ++ hash_to_remote_path local sha256
  ∧ (path_prefix self ≠ EmptyString →
     s3_key self local sha256
     ≠ path_prefix self ++ hash_to_remote_path local sha256).
Proof.
  intros H.
  assert (E : s3_key self local sha256
              = PurePosixPath.str
                  (PurePosixPath.make [hash_to_remote_path local sha256])).
  { unfold s3_key. now rewrite (make_absolute _ _ H). }
  destruct (str_absolute _ H) as [Hs Hlen].
  split; [exact E|]. split; [now intros <-|]. rewrite E.
  split; [exact Hs|]. split.
  - intros Heq. apply (f_equal String.length) in Heq.
    rewrite !length_append in Heq. cbn [String.length] in Heq. lia.
  - intros Hne Heq. apply (f_equal String.length) in Heq.
    rewrite length_append in Heq.
    destruct (path_prefix self); [contradiction|].
    cbn [String.length] in Heq. lia.
Qed.

Lemma absolute_remote_path_drops_prefix_witness :
  s3_key Sample.versioned Sample.rooted "h1" = "/abs/h1"
  ∧ s3_key Sample.versioned Sample.rooted "h1" ≠ "data/v1/" ++ "/" ++ "/abs/h1".
Proof.
  pose proof (absolute_remote_path_drops_prefix Sample.versioned Sample.rooted
                "h1" eq_refl) as (_ & H2 & _ & H4 & _).
  split; [exact (H2 eq_refl)|exact H4].
Defined.

(** * Further properties of the module *)

(** ** The handle made from a URL *)

Lemma startswith_app (s p : string) :
  PyStr.startswith s p = true → ∃ u, s = p ++ u.
Proof.
  revert s. induction p as [|a p IH]; intros s; cbn [PyStr.startswith].
  - intros _. now exists s.
  - destruct s as [|b s]; [discriminate|]. intros H.
    apply andb_true_iff in H as [Hab Hs]. apply Ascii.eqb_eq in Hab as ->.
    destruct (IH s Hs) as [u ->]. now exists u.
Qed.

Lemma split_scheme_s3 (u : string) :
  UrlParse.split_scheme ("s3://" ++ u) = ("s3", "//" ++ u).
Proof. reflexivity. Qed.

Lemma splitnetloc_all (b : string) :
  UrlParse.all_chars authority_char b = true →
  UrlParse.splitnetloc b = (b, EmptyString).
Proof.
  induction b as [|c b IH]; cbn [UrlParse.all_chars UrlParse.splitnetloc];
    [reflexivity|].
  intros H. apply andb_true_iff in H as [Hc Hb]. rewrite (IH Hb).
  unfold authority_char in Hc. apply andb_true_iff in Hc as [Hc _].
  apply negb_true_iff in Hc.
  repeat (apply orb_false_iff in Hc as [Hc ?]).
  rewrite Hc. cbn [orb]. replace (Ascii.eqb c "?") with false by auto.
  replace (Ascii.eqb c "#") with false by auto. reflexivity.
Qed.

Lemma splitnetloc_fst_free (s : string) :
  PyStr.contains "/" (fst (UrlParse.splitnetloc s)) = false
  ∧ PyStr.contains "?" (fst (UrlParse.splitnetloc s)) = false
  ∧ PyStr.contains "#" (fst (UrlParse.splitnetloc s)) = false.
Proof.
  induction s as [|c s IH]; cbn [UrlParse.splitnetloc]; [now repeat split|].
  destruct (Ascii.eqb c "/") eqn:E1; [now repeat split|].
  destruct (Ascii.eqb c "?") eqn:E2; [now repeat split|].
  destruct (Ascii.eqb c "#") eqn:E3; [now repeat split|].
  cbn [orb]. destruct (UrlParse.splitnetloc s) as [a b].
  cbn [fst PyStr.contains] in *. rewrite E1, E2, E3. exact IH.
Qed.

Lemma partition_fst_free (ch : ascii) (s : string) :
  PyStr.contains ch (fst (PyStr.partition ch s)) = false.
Proof.
  induction s as [|c s IH]; cbn [PyStr.partition]; [reflexivity|].
  destruct (Ascii.eqb c ch) eqn:E; [reflexivity|].
  destruct (PyStr.partition ch s) as [a b]. cbn [fst PyStr.contains] in *.
  now rewrite E, IH.
Qed.

Lemma partition_fst_keeps_free (ch ch' : ascii) (s : string) :
  PyStr.contains ch' s = false →
  PyStr.contains ch' (fst (PyStr.partition ch s)) = false.
Proof.
  induction s as [|c s IH]; cbn [PyStr.partition PyStr.contains]; [reflexivity|].
  intros H. apply orb_false_iff in H as [Hc Hs].
  destruct (Ascii.eqb c ch); [reflexivity|].
  destruct (PyStr.partition ch s) as [a b]. cbn [fst PyStr.contains] in *.
  now rewrite Hc, (IH Hs).
Qed.

Lemma lstrip_keeps_free (ch : ascii) (s : string) :
  PyStr.contains ch s = false → PyStr.contains ch (PyStr.lstrip s) = false.
Proof.
  induction s as [|c s IH]; cbn [PyStr.lstrip]; [reflexivity|].
  intros H. destruct (PyStr.isspace c); [|exact H].
  cbn [PyStr.contains] in H. apply orb_false_iff in H as [_ Hs]. exact (IH Hs).
Qed.

Lemma rstrip_keeps_free (ch : ascii) (s : string) :
  PyStr.contains ch s = false → PyStr.contains ch (PyStr.rstrip s) = false.
Proof.
  induction s as [|c s IH]; cbn [PyStr.rstrip]; [reflexivity|].
  cbn [PyStr.contains]. intros H. apply orb_false_iff in H as [Hc Hs].
  specialize (IH Hs). destruct (PyStr.rstrip s) as [|d r].
  - destruct (PyStr.isspace c); [reflexivity|].
    cbn [PyStr.contains]. now rewrite Hc.
  - cbn [PyStr.contains] in *. now rewrite Hc, IH.
Qed.

Lemma rstrip_idempotent (s : string) :
  PyStr.rstrip (PyStr.rstrip s) = PyStr.rstrip s.
Proof.
  induction s as [|c s IH]; [reflexivity|]. cbn [PyStr.rstrip].
  destruct (PyStr.rstrip s) as [|d r] eqn:E.
  - destruct (PyStr.isspace c) eqn:Ec; [reflexivity|].
    cbn [PyStr.rstrip]. now rewrite Ec.
  - cbn [PyStr.rstrip] in *. rewrite IH. reflexivity.
Qed.

Lemma rstrip_fixed_tail (c : ascii) (s : string) :
  PyStr.rstrip (String c s) = String c s → PyStr.rstrip s = s.
Proof.
  cbn [PyStr.rstrip]. destruct (PyStr.rstrip s) as [|d r].
  - destruct (PyStr.isspace c); [discriminate|]. now intros [= <-].
  - now intros [= <-].
Qed.

Lemma append_empty_r (s : string) : s ++ EmptyString = s.
Proof.
  induction s as [|c s IH]; [reflexivity|]. now rewrite append_cons, IH.
Qed.

Lemma append_assoc (s t u : string) : (s ++ t) ++ u = s ++ t ++ u.
Proof.
  induction s as [|c s IH]; [reflexivity|]. now rewrite !append_cons, IH.
Qed.

Lemma partition_app_free (ch : ascii) (x y : string) :
  PyStr.contains ch x = false →
  PyStr.partition ch (x ++ y)
  = (x ++ fst (PyStr.partition ch y), snd (PyStr.partition ch y)).
Proof.
  induction x as [|c x IH]; intros H.
  - rewrite !append_empty_l. now destruct (PyStr.partition ch y).
  - cbn [PyStr.contains] in H. apply orb_false_iff in H as [Hc Hx].
    rewrite !append_cons. cbn [PyStr.partition]. rewrite Hc, (IH Hx).
    reflexivity.
Qed.

Lemma urlparse_s3_any (u : string) :
  UrlParse.urlparse ("s3://" ++ u)
  = let '(loc, rest) := UrlParse.splitnetloc u in
    if xorb (PyStr.contains "[" loc) (PyStr.contains "]" loc)
    then Raise ValueError
    else
      let '(r1, frag) := PyStr.partition "#" rest in
      let '(r2, qry) := PyStr.partition "?" r1 in
      Ok (UrlParse.mkParseResult "s3" loc r2 qry frag).
Proof.
  unfold UrlParse.urlparse. rewrite split_scheme_s3.
  change ("//" ++ u) with (String "/" (String "/" u)).
  unfold UrlParse.split_authority.
  destruct (UrlParse.splitnetloc u) as [loc rest].
  destruct (xorb _ _); reflexivity.
Qed.

(** The prefix that [__init__] stores for a path. *)
Lemma init_of_parse (remote_url : string) (pr : UrlParse.ParseResult) :
  PyStr.startswith remote_url "s3://" = true →
  UrlParse.urlparse remote_url = Ok pr →
  (∀ p, UrlParse.path pr = String "/" p →
        AWS.init remote_url
        = Ok (mkAWSRemoteStorage remote_url (UrlParse.netloc pr) (PyStr.rstrip p)))
  ∧ (UrlParse.path pr = EmptyString →
     AWS.init remote_url
     = Ok (mkAWSRemoteStorage remote_url (UrlParse.netloc pr) EmptyString)).
Proof.
  intros Hs Hp. unfold AWS.init. rewrite Hs, Hp.
  cbn [negb mbind result_bind]. split.
  - intros p ->. unfold PyStr.strip. cbn [PyStr.lstrip].
    replace (PyStr.isspace "/") with false by reflexivity.
    rewrite (rstrip_nonspace_cons "/" p eq_refl).
    rewrite startswith_cons. cbn [PyStr.startswith].
    now rewrite substring_tail.
  - intros ->. reflexivity.
Qed.

Lemma splitnetloc_snd_head (s : string) :
  snd (UrlParse.splitnetloc s) = EmptyString
  ∨ ∃ c t, snd (UrlParse.splitnetloc s) = String c t
           ∧ (c = "/" ∨ c = "?" ∨ c = "#")%char.
Proof.
  induction s as [|c s IH]; cbn [UrlParse.splitnetloc]; [now left|].
  destruct (Ascii.eqb_spec c "/") as [->|n1];
    [right; exists "/"%char, s; split; [reflexivity|tauto]|].
  destruct (Ascii.eqb_spec c "?") as [->|n2];
    [right; exists "?"%char, s; split; [reflexivity|tauto]|].
  destruct (Ascii.eqb_spec c "#") as [->|n3];
    [right; exists "#"%char, s; split; [reflexivity|tauto]|].
  cbn [orb]. now destruct (UrlParse.splitnetloc s).
Qed.

(** The path that the parser returns is empty or begins with a slash. *)
Lemma path_after_authority (rest : string) :
  (rest = EmptyString
   ∨ ∃ c t, rest = String c t ∧ (c = "/" ∨ c = "?" ∨ c = "#")%char) →
  fst (PyStr.partition "?" (fst (PyStr.partition "#" rest))) = EmptyString
  ∨ ∃ t, fst (PyStr.partition "?" (fst (PyStr.partition "#" rest)))
         = String "/" t.
Proof.
  intros [->|(c & t & -> & [->|[->| ->]])].
  - now left.
  - right. cbn [PyStr.partition Ascii.eqb Bool.eqb].
    destruct (PyStr.partition "#" t) as [a b]. cbn [fst PyStr.partition
      Ascii.eqb Bool.eqb].
    destruct (PyStr.partition "?" a) as [a' b']. now exists a'.
  - left. cbn [PyStr.partition Ascii.eqb Bool.eqb].
    destruct (PyStr.partition "#" t) as [a b]. reflexivity.
  - now left.
Qed.

(** C6 (as the code has it).  [RemoteStorage.get_from_url]: the URL
    [s3://mybucket/prefix] gives a handle with bucket [mybucket] and
    prefix [prefix].  The bucket is the authority of the URL; the
    prefix is its path with the whitespace at its end trimmed and its
    leading slash removed, so that whitespace which follows the slash
    stays.  Every URL that does not start with [s3://], such as
    [ftp://x], raises the unsupported-URL error. *)
Theorem get_from_url_dispatch :
  RemoteStorage.get_from_url "s3://mybucket/prefix"
  = Ok (mkAWSRemoteStorage "s3://mybucket/prefix" "mybucket" "prefix")
  ∧ (∀ b p : string,
       UrlParse.all_chars authority_char b = true →
       UrlParse.all_chars path_char p = true →
       RemoteStorage.get_from_url ("s3://" ++ b ++ String "/" p)
       = Ok (mkAWSRemoteStorage ("s3://" ++ b ++ String "/" p) b (PyStr.rstrip p)))
  ∧ (∀ remote_url : string,
       PyStr.startswith remote_url "s3://" = false →
       RemoteStorage.get_from_url remote_url
       = Raise (RuntimeError
           ("Url `" ++ remote_url ++ "` is not supported as a remote storage backend")))
  ∧ RemoteStorage.get_from_url "ftp://x"
    = Raise (RuntimeError "Url `ftp://x` is not supported as a remote storage backend")
  ∧ (∀ (remote_url : string) (h : AWSRemoteStorage),
       RemoteStorage.get_from_url remote_url = Ok h →
       ∃ pr, UrlParse.urlparse remote_url = Ok pr
             ∧ bucket_name h = UrlParse.netloc pr
             ∧ path_prefix h = PyStr.rstrip (tail (UrlParse.path pr))).
Proof.
  split; [reflexivity|]. split; [|split; [|split; [reflexivity|]]].
  - intros b p Hb Hp. unfold RemoteStorage.get_from_url.
    replace (PyStr.startswith ("s3://" ++ b ++ String "/" p) "s3://") with true
      by reflexivity.
    exact (init_s3 b p Hb Hp).
  - intros remote_url H. unfold RemoteStorage.get_from_url. now rewrite H.
  - intros remote_url h. unfold RemoteStorage.get_from_url.
    destruct (PyStr.startswith remote_url "s3://") eqn:Hs; [|discriminate].
    intros Hinit.
    destruct (startswith_app _ _ Hs) as [u ->].
    pose proof (urlparse_s3_any u) as Hparse.
    pose proof (splitnetloc_snd_head u) as Hhead.
    destruct (UrlParse.splitnetloc u) as [loc rest]. cbn [snd] in Hhead.
    pose proof (path_after_authority rest Hhead) as Hpath.
    destruct (xorb _ _).
    + unfold AWS.init in Hinit. rewrite Hs, Hparse in Hinit. discriminate.
    + destruct (PyStr.partition "#" rest) as [r1 frag]. cbn [fst] in Hpath.
      destruct (PyStr.partition "?" r1) as [r2 qry]. cbn [fst] in Hpath.
      eexists. split; [exact Hparse|].
      cbn [UrlParse.netloc UrlParse.path].
      destruct Hpath as [->|[t ->]].
      * rewrite (proj2 (init_of_parse _ _ Hs Hparse) eq_refl) in Hinit.
        injection Hinit as <-. now split.
      * rewrite (proj1 (init_of_parse _ _ Hs Hparse) t eq_refl) in Hinit.
        injection Hinit as <-. now split.
Qed.

Lemma get_from_url_dispatch_witness :
  RemoteStorage.get_from_url "s3://data-lake/raw/2018 "
  = Ok (mkAWSRemoteStorage "s3://data-lake/raw/2018 " "data-lake" "raw/2018")
  ∧ RemoteStorage.get_from_url "gs://bucket/x"
    = Raise (RuntimeError "Url `gs://bucket/x` is not supported as a remote storage backend").
Proof.
  split.
  - exact (proj1 (proj2 get_from_url_dispatch) "data-lake" "raw/2018 " eq_refl eq_refl).
  - exact (proj1 (proj2 (proj2 get_from_url_dispatch)) "gs://bucket/x" eq_refl).
Defined.

(** C6 as stated fails: the whitespace that follows the slash of the
    path is not trimmed, the prefix of [s3://mybucket/ prefix] begins
    with a blank. *)
Lemma get_from_url_keeps_blank_after_slash :
  RemoteStorage.get_from_url "s3://mybucket/ prefix"
  = Ok (mkAWSRemoteStorage "s3://mybucket/ prefix" "mybucket" " prefix")
  ∧ " prefix" ≠ PyStr.strip (tail "/ prefix").
Proof. split; [reflexivity|discriminate]. Qed.

(** X1.  A URL made of [s3://] and a plain authority, with no path at
    all, gives a handle for that bucket with the empty prefix. *)
Theorem get_from_url_bucket_only (b : string) :
  UrlParse.all_chars authority_char b = true →
  RemoteStorage.get_from_url ("s3://" ++ b)
  = Ok (mkAWSRemoteStorage ("s3://" ++ b) b EmptyString).
Proof.
  intros Hb. unfold RemoteStorage.get_from_url.
  replace (PyStr.startswith ("s3://" ++ b) "s3://") with true by reflexivity.
  assert (Hp : UrlParse.urlparse ("s3://" ++ b)
               = Ok (UrlParse.mkParseResult "s3" b EmptyString EmptyString
                                            EmptyString)).
  { rewrite urlparse_s3_any, (splitnetloc_all b Hb).
    rewrite (all_chars_contains authority_char "[" b eq_refl Hb).
    rewrite (all_chars_contains authority_char "]" b eq_refl Hb).
    reflexivity. }
  exact (proj2 (init_of_parse ("s3://" ++ b) _ eq_refl Hp) eq_refl).
Qed.

Lemma get_from_url_bucket_only_witness :
  RemoteStorage.get_from_url ("s3://" ++ "data-lake")
  = Ok (mkAWSRemoteStorage ("s3://" ++ "data-lake") "data-lake" EmptyString).
Proof. apply get_from_url_bucket_only. reflexivity. Defined.

(** X2.  A query or a fragment at the end of the URL is not part of the
    handle: the prefix is the path before it. *)
Theorem get_from_url_drops_query_and_fragment (b p q : string) :
  UrlParse.all_chars authority_char b = true →
  UrlParse.all_chars path_char p = true →
  RemoteStorage.get_from_url ("s3://" ++ b ++ String "/" (p ++ String "?" q))
  = Ok (mkAWSRemoteStorage ("s3://" ++ b ++ String "/" (p ++ String "?" q))
                           b (PyStr.rstrip p))
  ∧ RemoteStorage.get_from_url ("s3://" ++ b ++ String "/" (p ++ String "#" q))
    = Ok (mkAWSRemoteStorage ("s3://" ++ b ++ String "/" (p ++ String "#" q))
                             b (PyStr.rstrip p)).
Proof.
  intros Hb Hp.
  pose proof (all_chars_contains authority_char "[" b eq_refl Hb) as Hl.
  pose proof (all_chars_contains authority_char "]" b eq_refl Hb) as Hr.
  assert (Hh : PyStr.contains "#" (String "/" p) = false)
    by exact (all_chars_contains path_char "#" p eq_refl Hp).
  assert (Hq : PyStr.contains "?" (String "/" p) = false)
    by exact (all_chars_contains path_char "?" p eq_refl Hp).
  unfold RemoteStorage.get_from_url. split.
  - replace (PyStr.startswith _ "s3://") with true by reflexivity.
    assert (Hparse : ∃ qry frag,
      UrlParse.urlparse ("s3://" ++ b ++ String "/" (p ++ String "?" q))
      = Ok (UrlParse.mkParseResult "s3" b (String "/" p) qry frag)).
    { rewrite urlparse_s3_any, (splitnetloc_authority b _ Hb), Hl, Hr.
      cbn [xorb]. rewrite <- (append_cons "/" p (String "?" q)).
      rewrite (partition_app_free "#" _ (String "?" q) Hh).
      destruct (PyStr.partition "#" (String "?" q)) as [q1 frag] eqn:E.
      cbn [fst snd].
      assert (Hq1 : ∃ q2, q1 = String "?" q2).
      { cbn [PyStr.partition] in E. cbn [Ascii.eqb Bool.eqb] in E.
        destruct (PyStr.partition "#" q) as [a c]. injection E as <- <-.
        now exists a. }
      destruct Hq1 as [q2 ->].
      rewrite (partition_app_free "?" _ (String "?" q2) Hq).
      cbn [PyStr.partition Ascii.eqb Bool.eqb fst snd].
      rewrite append_empty_r. now exists q2, frag. }
    destruct Hparse as (qry & frag & Hparse).
    exact (proj1 (init_of_parse
                    ("s3://" ++ b ++ String "/" (p ++ String "?" q)) _
                    eq_refl Hparse) p eq_refl).
  - replace (PyStr.startswith _ "s3://") with true by reflexivity.
    assert (Hparse :
      UrlParse.urlparse ("s3://" ++ b ++ String "/" (p ++ String "#" q))
      = Ok (UrlParse.mkParseResult "s3" b (String "/" p) EmptyString q)).
    { rewrite urlparse_s3_any, (splitnetloc_authority b _ Hb), Hl, Hr.
      cbn [xorb]. rewrite <- (append_cons "/" p (String "#" q)).
      rewrite (partition_app_free "#" _ (String "#" q) Hh).
      cbn [PyStr.partition Ascii.eqb Bool.eqb fst snd].
      rewrite append_empty_r, (partition_absent "?" _ Hq). reflexivity. }
    exact (proj1 (init_of_parse
                    ("s3://" ++ b ++ String "/" (p ++ String "#" q)) _
                    eq_refl Hparse) p eq_refl).
Qed.

Lemma get_from_url_drops_query_and_fragment_witness :
  RemoteStorage.get_from_url
    ("s3://" ++ "mybucket" ++ String "/" ("raw/2018" ++ String "?" "versionId=3#top"))
  = Ok (mkAWSRemoteStorage
          ("s3://" ++ "mybucket" ++ String "/" ("raw/2018" ++ String "?" "versionId=3#top"))
          "mybucket" "raw/2018").
Proof.
  apply (proj1 (get_from_url_drops_query_and_fragment "mybucket" "raw/2018"
                  "versionId=3#top" eq_refl eq_refl)).
Defined.

(** X3.  Every handle that [get_from_url] returns keeps the URL it was
    made from; its bucket name has no slash, question mark or hash; its
    prefix has no question mark or hash and no whitespace at its end. *)
Theorem get_from_url_handle_shape (remote_url : string) (h : AWSRemoteStorage) :
  RemoteStorage.get_from_url remote_url = Ok h →
  url h = remote_url
  ∧ PyStr.startswith remote_url "s3://" = true
  ∧ PyStr.contains "/" (bucket_name h) = false
  ∧ PyStr.contains "?" (bucket_name h) = false
  ∧ PyStr.contains "#" (bucket_name h) = false
  ∧ PyStr.contains "?" (path_prefix h) = false
  ∧ PyStr.contains "#" (path_prefix h) = false
  ∧ PyStr.rstrip (path_prefix h) = path_prefix h.
Proof.
  unfold RemoteStorage.get_from_url.
  destruct (PyStr.startswith remote_url "s3://") eqn:Hs; [|discriminate].
  destruct (startswith_app _ _ Hs) as [u Hu].
  unfold AWS.init. rewrite Hs. cbn [negb]. rewrite Hu at 1.
  rewrite urlparse_s3_any.
  pose proof (splitnetloc_fst_free u) as (B1 & B2 & B3).
  destruct (UrlParse.splitnetloc u) as [loc rest]. cbn [fst] in B1, B2, B3.
  destruct (xorb _ _); [discriminate|].
  pose proof (partition_fst_free "#" rest) as P1.
  destruct (PyStr.partition "#" rest) as [r1 frag]. cbn [fst] in P1.
  pose proof (partition_fst_free "?" r1) as P2.
  pose proof (partition_fst_keeps_free "?" "#" r1 P1) as P3.
  destruct (PyStr.partition "?" r1) as [r2 qry]. cbn [fst] in P2, P3.
  cbn [mbind result_bind UrlParse.path UrlParse.netloc].
  assert (S1 : PyStr.contains "?" (PyStr.strip r2) = false)
    by (apply rstrip_keeps_free, lstrip_keeps_free, P2).
  assert (S2 : PyStr.contains "#" (PyStr.strip r2) = false)
    by (apply rstrip_keeps_free, lstrip_keeps_free, P3).
  assert (S3 : PyStr.rstrip (PyStr.strip r2) = PyStr.strip r2)
    by apply rstrip_idempotent.
  destruct (PyStr.strip r2) as [|c t].
  - cbn [PyStr.startswith]. intros [= <-]. cbn. now repeat split.
  - cbn [PyStr.startswith]. rewrite andb_true_r.
    destruct (Ascii.eqb "/" c) eqn:Ec.
    + rewrite substring_tail. intros [= <-].
      cbn [url bucket_name path_prefix].
      cbn [PyStr.contains] in S1, S2.
      apply orb_false_iff in S1 as [_ S1]. apply orb_false_iff in S2 as [_ S2].
      repeat split; try assumption. exact (rstrip_fixed_tail c t S3).
    + intros [= <-]. cbn [url bucket_name path_prefix]. now repeat split.
Qed.

Lemma get_from_url_handle_shape_witness :
  PyStr.contains "/" "mybucket" = false
  ∧ PyStr.rstrip "raw/2018" = "raw/2018".
Proof.
  pose proof (get_from_url_handle_shape "s3://mybucket/raw/2018 ?x"
                (mkAWSRemoteStorage "s3://mybucket/raw/2018 ?x" "mybucket"
                                    "raw/2018") eq_refl)
    as (_ & _ & H1 & _ & _ & _ & _ & H2).
  split; [exact H1|exact H2].
Defined.

(** X4.  A URL that starts with [s3://] and whose authority, the text
    up to the next slash, question mark or hash, has a square bracket
    without its partner gets no handle: the URL parser raises
    [ValueError] and [get_from_url] passes it on. *)
Theorem get_from_url_unmatched_bracket (u : string) :
  xorb (PyStr.contains "[" (fst (UrlParse.splitnetloc u)))
       (PyStr.contains "]" (fst (UrlParse.splitnetloc u))) = true →
  RemoteStorage.get_from_url ("s3://" ++ u) = Raise ValueError.
Proof.
  intros H. unfold RemoteStorage.get_from_url, AWS.init.
  replace (PyStr.startswith ("s3://" ++ u) "s3://") with true by reflexivity.
  cbn [negb]. rewrite urlparse_s3_any.
  destruct (UrlParse.splitnetloc u) as [loc rest]. cbn [fst] in H.
  now rewrite H.
Qed.

Lemma get_from_url_unmatched_bracket_witness :
  RemoteStorage.get_from_url ("s3://" ++ "[mybucket/prefix") = Raise ValueError.
Proof. apply get_from_url_unmatched_bracket. reflexivity. Defined.

(** X5.  [AWSRemoteStorage.__init__] called on its own raises its
    [RuntimeError] exactly for the URLs that do not start with
    [s3://]; [get_from_url] tests the same condition first, so it never
    passes that error on. *)
Theorem aws_init_guard :
  (∀ remote_url : string,
     AWS.init remote_url
     = Raise (RuntimeError "AWSRemoteStorage URL needs to start with s3://")
     ↔ PyStr.startswith remote_url "s3://" = false)
  ∧ (∀ remote_url : string,
       RemoteStorage.get_from_url remote_url
       ≠ Raise (RuntimeError "AWSRemoteStorage URL needs to start with s3://")).
Proof.
  assert (Hinit : ∀ remote_url : string,
    AWS.init remote_url
    = Raise (RuntimeError "AWSRemoteStorage URL needs to start with s3://")
    ↔ PyStr.startswith remote_url "s3://" = false).
  { intros remote_url. unfold AWS.init.
    destruct (PyStr.startswith remote_url "s3://"); cbn [negb].
    - destruct (UrlParse.urlparse remote_url) as [p|e] eqn:E;
        cbn [mbind result_bind]; [split; discriminate|].
      apply urlparse_raises in E as ->. split; discriminate.
    - split; reflexivity. }
  split; [exact Hinit|].
  intros remote_url. unfold RemoteStorage.get_from_url.
  destruct (PyStr.startswith remote_url "s3://") eqn:Hs.
  - intros H. apply Hinit in H. congruence.
  - discriminate.
Qed.

Lemma aws_init_guard_witness :
  AWS.init "ftp://x"
  = Raise (RuntimeError "AWSRemoteStorage URL needs to start with s3://").
Proof. apply (proj1 aws_init_guard "ftp://x"). reflexivity. Defined.

(** ** The manifest *)

Lemma all_sha256_files (cfg : Config) (entries : list (gmap string string)) :
  config cfg !! "files" = Some (CFiles entries) →
  (Forall (λ e : gmap string string, is_Some (e !! "hash")) entries →
   ∃ hashes, all_sha256 cfg = Ok hashes
             ∧ Forall2 (λ (e : gmap string string) h, e !! "hash" = Some h)
                       entries hashes)
  ∧ (Exists (λ e : gmap string string, e !! "hash" = None) entries →
     all_sha256 cfg = Raise (KeyError "hash")).
Proof.
  intros Hf. unfold all_sha256. rewrite Hf. clear Hf. split.
  - induction 1 as [|e es [h He] _ (hs & IH & F)].
    + exists []. split; [reflexivity|constructor].
    + exists (h :: hs). split; [|now constructor].
      cbn [mapM]. rewrite He. cbn [mbind result_bind]. rewrite IH. reflexivity.
  - induction 1 as [e es He|e es _ IH]; cbn [mapM].
    + now rewrite He.
    + destruct (e !! "hash"); cbn [mbind result_bind]; [|reflexivity].
      now rewrite IH.
Qed.

(** X6.  The hashes are read from the manifest before the first probe:
    when the configuration has no [files] list, or one of its entries
    has no [hash], [upload] raises [KeyError] without any transfer, also
    for the entries that come before the faulty one. *)
Theorem upload_malformed_manifest
    {Remote : Type} (client : S3Client Remote) (self : AWSRemoteStorage)
    (local : LocalStorage) (fs : FileSystem) (cfg : Config) (r : Remote) :
  (config cfg !! "files" = None →
   upload client self local fs cfg r = ([], Raise (KeyError "files")))
  ∧ (∀ entries : list (gmap string string),
       config cfg !! "files" = Some (CFiles entries) →
       Exists (λ e : gmap string string, e !! "hash" = None) entries →
       upload client self local fs cfg r = ([], Raise (KeyError "hash"))).
Proof.
  split.
  - intros H. unfold upload, all_sha256. now rewrite H.
  - intros entries Hf Hex. unfold upload.
    now rewrite (proj2 (all_sha256_files cfg entries Hf) Hex).
Qed.

Lemma upload_malformed_manifest_witness :
  upload MemS3.client Sample.self Sample.local Sample.fs
         (mkConfig {[ "files" := CFiles [ {[ "hash" := "h1" ]};
                                          {[ "path" := "data.csv" ]} ] ]})
         (MemS3.empty "b")
  = ([], Raise (KeyError "hash"))
  ∧ upload MemS3.client Sample.self Sample.local Sample.fs (mkConfig ∅)
           (MemS3.empty "b")
    = ([], Raise (KeyError "files")).
Proof.
  split.
  - apply (proj2 (upload_malformed_manifest MemS3.client Sample.self
                    Sample.local Sample.fs _ (MemS3.empty "b"))
             [ {[ "hash" := "h1" ]}; {[ "path" := "data.csv" ]} ]).
    + reflexivity.
    + apply Exists_cons_tl, Exists_cons_hd. reflexivity.
  - apply (proj1 (upload_malformed_manifest MemS3.client Sample.self
                    Sample.local Sample.fs (mkConfig ∅) (MemS3.empty "b"))).
    reflexivity.
Defined.

(** ** How a run ends *)

(** X7.  An entry that has to be sent ends the run when its local file
    cannot be read or its transfer raises: the run ends with that
    error, in the first case before the transfer is started, and no
    later entry is probed or sent; the transfers made before stand. *)
Theorem upload_stops_at_failure
    {Remote : Type} (client : S3Client Remote) (self : AWSRemoteStorage)
    (local : LocalStorage) (fs : FileSystem)
    (pre : list string) (sha256 : string) (rest : list string)
    (r r1 : Remote) (ts : list transfer) :
  upload_loop client self local fs pre r = (ts, Ok r1) →
  probe_exists (head_object client r1 (bucket_name self)
                            (s3_key self local sha256)) = Ok false →
  (getsize fs (hash_to_file local sha256) = None →
   upload_loop client self local fs (pre ++ sha256 :: rest)%list r
   = (ts, Raise (OSError (hash_to_file local sha256))))
  ∧ (∀ size e,
       getsize fs (hash_to_file local sha256) = Some size →
       upload_file client r1 (hash_to_file local sha256) (bucket_name self)
                   (s3_key self local sha256) = Raise e →
       upload_loop client self local fs (pre ++ sha256 :: rest)%list r
       = ((ts ++ [entry_transfer self local sha256])%list, Raise e)).
Proof.
  intros Hpre Hprobe.
  pose proof (upload_loop_middle client self local fs pre sha256 rest r r1 ts Hpre)
    as Hmid.
  split.
  - intros Hsize. rewrite Hmid. unfold upload_entry, Progress.init.
    rewrite Hprobe, Hsize. now rewrite app_nil_r.
  - intros size e Hsize Hup. rewrite Hmid.
    rewrite (upload_entry_absent client self local fs sha256 r1 size Hprobe Hsize).
    now rewrite Hup.
Qed.

Lemma upload_stops_at_failure_witness :
  upload_loop MemS3.client Sample.self Sample.local
              Sample.no_files ([] ++ "h1" :: ["h2"])%list
              (MemS3.empty "b")
  = ([], Raise (OSError "/cache/h1")).
Proof.
  apply (proj1 (upload_stops_at_failure MemS3.client Sample.self Sample.local
                  Sample.no_files [] "h1" ["h2"]
                  (MemS3.empty "b") (MemS3.empty "b") [] eq_refl eq_refl)).
  reflexivity.
Defined.

(** X8.  The transfers of a run follow the manifest: they are, in the
    order of the manifest, the transfers of some of its hashes, each
    from the file of the hash to the handle's bucket and the key of the
    hash; so a run never starts more transfers than the manifest has
    entries. *)
Theorem upload_transfers_follow_manifest
    {Remote : Type} (client : S3Client Remote) (self : AWSRemoteStorage)
    (local : LocalStorage) (fs : FileSystem) (cfg : Config) (r : Remote)
    (hashes : list string) :
  all_sha256 cfg = Ok hashes →
  sublist (fst (upload client self local fs cfg r))
          (entry_transfer self local <$> hashes)
  ∧ (length (fst (upload client self local fs cfg r)) ≤ length hashes)%nat.
Proof.
  intros Hh. unfold upload. rewrite Hh.
  assert (Hsub : ∀ r0, sublist (fst (upload_loop client self local fs hashes r0))
                               (entry_transfer self local <$> hashes)).
  { clear Hh. induction hashes as [|h rest IH]; intros r0; [constructor|].
    rewrite upload_loop_cons. cbn [fmap list_fmap].
    destruct (upload_entry_cases client self local fs h r0)
      as [[He _]|[[e He]|[_ He]]]; rewrite He.
    - cbn [fst app]. apply sublist_cons. apply IH.
    - cbn [fst]. apply sublist_nil_l.
    - destruct (upload_file client r0 _ _ _) as [r1|e].
      + cbn [fst app]. apply sublist_skip. apply IH.
      + cbn [fst]. apply sublist_skip. apply sublist_nil_l. }
  split; [apply Hsub|].
  pose proof (sublist_length _ _ (Hsub r)) as Hlen.
  now rewrite length_fmap in Hlen.
Qed.

Lemma upload_transfers_follow_manifest_witness :
  sublist (fst (upload MemS3.client Sample.self Sample.local Sample.fs
                       (Sample.cfg ["h1"; "h2"; "h1"]) (MemS3.empty "b")))
          (entry_transfer Sample.self Sample.local <$> ["h1"; "h2"; "h1"]).
Proof.
  apply (proj1 (upload_transfers_follow_manifest MemS3.client Sample.self
                  Sample.local Sample.fs (Sample.cfg ["h1"; "h2"; "h1"])
                  (MemS3.empty "b") ["h1"; "h2"; "h1"]
                  ltac:(vm_compute; reflexivity))).
Defined.

(** X9.  With a remote service that shows an uploaded object to the
    next probe, a key whose probe does not say 404 when the run starts
    is never sent to during the run: [upload] does not overwrite what
    it finds. *)
Theorem upload_never_resends_present
    {Remote : Type} (client : S3Client Remote) (self : AWSRemoteStorage)
    (local : LocalStorage) (fs : FileSystem) (cfg : Config) (r : Remote)
    (key : string) :
  read_after_write client →
  probe_exists (head_object client r (bucket_name self) key) = Ok true →
  transfers_to key (fst (upload client self local fs cfg r)) = 0.
Proof.
  intros Hraw Hkey. unfold upload.
  destruct (all_sha256 cfg) as [hashes|e]; [|reflexivity].
  exact (upload_loop_present_not_sent client self local fs Hraw hashes r key Hkey).
Qed.

Lemma upload_never_resends_present_witness :
  transfers_to "p/data/h2"
    (fst (upload MemS3.client Sample.self Sample.local Sample.fs
                 (Sample.cfg ["h1"; "h2"; "h3"])
                 (MemS3.mk {["b"]} {[("b", "p/data/h2") := "/cache/h2"]} ∅ false)))
  = 0.
Proof.
  apply (upload_never_resends_present MemS3.client Sample.self Sample.local
           Sample.fs (Sample.cfg ["h1"; "h2"; "h3"])
           (MemS3.mk {["b"]} {[("b", "p/data/h2") := "/cache/h2"]} ∅ false)
           "p/data/h2" mem_s3_read_after_write).
  vm_compute. reflexivity.
Defined.

(** X11.  Uploading a manifest is uploading its first part and then,
    from the state that leaves, the rest: the transfers are those of
    the two runs in a row, and when the first part fails the rest is
    not started. *)
Theorem upload_split_manifest
    {Remote : Type} (client : S3Client Remote) (self : AWSRemoteStorage)
    (local : LocalStorage) (fs : FileSystem) (cfg cfg1 cfg2 : Config)
    (h1 h2 : list string) (r : Remote) :
  all_sha256 cfg1 = Ok h1 →
  all_sha256 cfg2 = Ok h2 →
  all_sha256 cfg = Ok (h1 ++ h2)%list →
  upload client self local fs cfg r
  = match upload client self local fs cfg1 r with
    | (ts, Ok r1) =>
        ((ts ++ fst (upload client self local fs cfg2 r1))%list,
         snd (upload client self local fs cfg2 r1))
    | (ts, Raise e) => (ts, Raise e)
    end.
Proof.
  intros H1 H2 H. unfold upload. rewrite H1, H2, H.
  apply upload_loop_app.
Qed.

Lemma upload_split_manifest_witness :
  upload MemS3.client Sample.self Sample.local Sample.fs
         (Sample.cfg ["h1"; "h2"; "h1"]) (MemS3.empty "b")
  = match upload MemS3.client Sample.self Sample.local Sample.fs
                 (Sample.cfg ["h1"]) (MemS3.empty "b") with
    | (ts, Ok r1) =>
        ((ts ++ fst (upload MemS3.client Sample.self Sample.local Sample.fs
                            (Sample.cfg ["h2"; "h1"]) r1))%list,
         snd (upload MemS3.client Sample.self Sample.local Sample.fs
                     (Sample.cfg ["h2"; "h1"]) r1))
    | (ts, Raise e) => (ts, Raise e)
    end.
Proof.
  apply (upload_split_manifest MemS3.client Sample.self Sample.local Sample.fs
           (Sample.cfg ["h1"; "h2"; "h1"]) (Sample.cfg ["h1"])
           (Sample.cfg ["h2"; "h1"]) ["h1"] ["h2"; "h1"] (MemS3.empty "b"));
    vm_compute; reflexivity.
Defined.

(** ** More on the progress callback *)

Lemma calls_closed (self : S3ProgressPercentage) (amounts : list Z) :
  Progress.calls self amounts
  = mkS3ProgressPercentage (_filename self) (_size self)
      (_seen_so_far self + Progress.sum amounts).
Proof.
  destruct (calls_fields self amounts) as (Hs & Hf & Hz).
  destruct (Progress.calls self amounts) as [f z n]. cbn in Hs, Hf, Hz.
  now subst.
Qed.

Lemma sum_permutation (l1 l2 : list Z) :
  l1 ≡ₚ l2 → Progress.sum l1 = Progress.sum l2.
Proof.
  unfold Progress.sum.
  induction 1 as [|x l l' _ IH|x y l|l l' l'' _ IH1 _ IH2]; cbn [fold_right];
    [reflexivity|lia|lia|congruence].
Qed.

(** X13.  The object that a series of calls leaves does not depend on
    the order of the calls: the threads of a transfer may report their
    chunks in any order. *)
Theorem progress_order_independent (self : S3ProgressPercentage)
    (amounts amounts' : list Z) :
  amounts ≡ₚ amounts' →
  Progress.calls self amounts = Progress.calls self amounts'.
Proof.
  intros H. rewrite !calls_closed. now rewrite (sum_permutation _ _ H).
Qed.

Lemma progress_order_independent_witness :
  Progress.calls (mkS3ProgressPercentage "/cache/h1" 10 0) [4; 6]%Z
  = Progress.calls (mkS3ProgressPercentage "/cache/h1" 10 0) [6; 4]%Z.
Proof.
  apply (progress_order_independent
           (mkS3ProgressPercentage "/cache/h1" 10 0) [4; 6]%Z [6; 4]%Z).
  apply perm_swap.
Defined.

(** ** Response codes that are not numbers *)

Lemma letter_not_int_space (c : ascii) :
  is_letter c = true → PyStr.int_space c = false.
Proof.
  destruct c as [[] [] [] [] [] [] [] []]; vm_compute; congruence.
Qed.

Lemma rstrip_with_cons (p : ascii → bool) (c : ascii) (s : string) :
  p c = false →
  PyStr.rstrip_with p (String c s) = String c (PyStr.rstrip_with p s).
Proof.
  intros H. cbn [PyStr.rstrip_with].
  destruct (PyStr.rstrip_with p s); [rewrite H|]; reflexivity.
Qed.

Lemma to_int_letter (c : ascii) (rest : string) :
  is_letter c = true → PyStr.to_int (String c rest) = None.
Proof.
  intros H. unfold PyStr.to_int. cbn [PyStr.lstrip_with].
  rewrite (letter_not_int_space c H).
  rewrite (rstrip_with_cons _ c rest (letter_not_int_space c H)).
  revert H.
  destruct c as [[] [] [] [] [] [] [] []];
    try (vm_compute; discriminate); intros _;
    cbv - [PyStr.rstrip_with PyStr.digit_count]; reflexivity.
Qed.

(** X14.  A [ClientError] whose code begins with a letter, as the
    symbolic codes [AccessDenied] or [NoSuchKey] do, is not handled by
    either probe: reading the code as an integer raises [ValueError],
    which [check_storage_exists] passes on and which ends [upload] at
    that entry without a transfer. *)
Theorem symbolic_code_raises
    {Remote : Type} (client : S3Client Remote) (self : AWSRemoteStorage)
    (local : LocalStorage) (fs : FileSystem) (r : Remote)
    (c : ascii) (rest : string) :
  is_letter c = true →
  (head_bucket client r (bucket_name self) = HeadClientError (String c rest) →
   check_storage_exists client self r = Raise ValueError)
  ∧ (∀ (sha256 : string) (others : list string),
       head_object client r (bucket_name self) (s3_key self local sha256)
       = HeadClientError (String c rest) →
       upload_loop client self local fs (sha256 :: others) r
       = ([], Raise ValueError)).
Proof.
  intros Hc. pose proof (to_int_letter c rest Hc) as Hint. split.
  - intros Hh. unfold check_storage_exists. rewrite Hh.
    exact (probe_exists_bad_code _ Hint).
  - intros sha256 others Hh. rewrite upload_loop_cons.
    rewrite (upload_entry_raises client self local fs sha256 r ValueError);
      [reflexivity|].
    rewrite Hh. exact (probe_exists_bad_code _ Hint).
Qed.

Lemma symbolic_code_raises_witness :
  check_storage_exists
    (mkS3Client unit (λ _ _, HeadClientError "AccessDenied")
                (λ _ _ _, HeadFound) (λ r _ _ _, Ok r))
    Sample.self tt
  = Raise ValueError.
Proof.
  apply (proj1 (symbolic_code_raises
                  (mkS3Client unit (λ _ _, HeadClientError "AccessDenied")
                              (λ _ _ _, HeadFound) (λ r _ _ _, Ok r))
                  Sample.self Sample.local Sample.fs tt "A" "ccessDenied"
                  eq_refl)).
  reflexivity.
Defined.

(** ** The shape of a key *)

Lemma parse_rev_shape (segments : list string) :
  (PurePosixPath.root (PurePosixPath.parse_rev segments) = EmptyString
   ∨ PurePosixPath.root (PurePosixPath.parse_rev segments) = "/"
   ∨ PurePosixPath.root (PurePosixPath.parse_rev segments) = "//")
  ∧ Forall is_name (PurePosixPath.parts (PurePosixPath.parse_rev segments)).
Proof.
  induction segments as [|part before [IHr IHp]].
  - split; [now left|constructor].
  - destruct (PyStr.startswith part "/") eqn:Hs.
    + apply startswith_slash in Hs as [p ->]. cbn [PurePosixPath.parse_rev].
      destruct (splitroot_absolute p) as (rt & stripped & -> & [->| ->] & _);
        cbn [PurePosixPath.root PurePosixPath.parts];
        (split; [tauto|apply components_names]).
    + rewrite (parse_rev_relative part before Hs).
      cbn [PurePosixPath.root PurePosixPath.parts].
      split; [exact IHr|]. apply Forall_app_2; [exact IHp|apply components_names].
Qed.

Lemma ends_with_slash_cons (c : ascii) (s : string) :
  s ≠ EmptyString → ends_with_slash (String c s) = ends_with_slash s.
Proof. destruct s; [contradiction|reflexivity]. Qed.

Lemma ends_with_slash_app (x y : string) :
  y ≠ EmptyString → ends_with_slash (x ++ y) = ends_with_slash y.
Proof.
  intros Hy. induction x as [|c x IH]; [reflexivity|].
  rewrite append_cons, ends_with_slash_cons; [exact IH|].
  destruct x; [exact Hy|discriminate].
Qed.

Lemma name_no_trailing_slash (x : string) :
  PyStr.contains "/" x = false → ends_with_slash x = false.
Proof.
  induction x as [|c x IH]; [reflexivity|]. cbn [PyStr.contains].
  intros H. apply orb_false_iff in H as [Hc Hx].
  destruct x as [|d x]; [exact Hc|].
  rewrite ends_with_slash_cons by discriminate. exact (IH Hx).
Qed.

Lemma join_names_not_empty (x : string) (l : list string) :
  is_name x → PyStr.join "/" (x :: l) ≠ EmptyString.
Proof.
  intros [Hne _]. destruct x as [|c x]; [contradiction|].
  rewrite join_cons_char. discriminate.
Qed.

Lemma join_names_no_trailing_slash (l : list string) :
  Forall is_name l → ends_with_slash (PyStr.join "/" l) = false.
Proof.
  induction 1 as [|x l Hx Hl IH]; [reflexivity|].
  destruct l as [|y l].
  - apply name_no_trailing_slash, Hx.
  - rewrite join_cons2.
    inversion Hl as [|? ? Hy _]; subst.
    pose proof (join_names_not_empty y l Hy) as Hne.
    rewrite ends_with_slash_app by (rewrite append_cons; discriminate).
    rewrite append_cons, append_empty_l, ends_with_slash_cons by exact Hne.
    exact IH.
Qed.

Lemma has_double_slash_tail (s : string) :
  has_double_slash s = false → has_double_slash (tail s) = false.
Proof.
  destruct s as [|c s]; [reflexivity|]. cbn [has_double_slash tail].
  intros H. now apply orb_false_iff in H as [_ H].
Qed.

(** X15.  Whatever the prefix and the remote path are, the key is in
    normal form: it is not empty, it ends with a slash only when it is
    the bare root, and after its first character it has no two slashes
    in a row. *)
Theorem s3_key_normal_form (self : AWSRemoteStorage) (local : LocalStorage)
    (sha256 : string) :
  s3_key self local sha256 ≠ EmptyString
  ∧ (ends_with_slash (s3_key self local sha256) = true →
     s3_key self local sha256 = "/" ∨ s3_key self local sha256 = "//")
  ∧ has_double_slash (tail (s3_key self local sha256)) = false.
Proof.
  unfold s3_key, PurePosixPath.make, PurePosixPath.str.
  destruct (parse_rev_shape
              (rev [path_prefix self; hash_to_remote_path local sha256]))
    as [Hroot Hnames].
  destruct (PurePosixPath.parse_rev _) as [rt names].
  cbn [PurePosixPath.root PurePosixPath.parts] in *.
  pose proof (join_names names Hnames) as [J1 J2].
  pose proof (join_names_no_trailing_slash names Hnames) as J3.
  destruct Hroot as [->|[->| ->]].
  - rewrite append_empty_l.
    destruct (PyStr.join "/" names) as [|c s].
    + split; [discriminate|]. split; [discriminate|reflexivity].
    + split; [discriminate|]. split; [congruence|].
      exact (has_double_slash_tail _ J2).
  - rewrite append_cons, append_empty_l. split; [discriminate|]. split.
    + destruct (PyStr.join "/" names) as [|c s]; [now left|].
      rewrite ends_with_slash_cons by discriminate. congruence.
    + exact J2.
  - rewrite !append_cons, append_empty_l. split; [discriminate|]. split.
    + destruct (PyStr.join "/" names) as [|c s]; [now right|].
      rewrite !ends_with_slash_cons by discriminate. congruence.
    + cbn [tail has_double_slash]. now rewrite J1, J2.
Qed.

Lemma s3_key_normal_form_witness :
  s3_key Sample.versioned (mkLocalStorage (λ h, "/cache/" ++ h) (λ _, "/")) "h1"
  = "/"
  ∨ s3_key Sample.versioned (mkLocalStorage (λ h, "/cache/" ++ h) (λ _, "/")) "h1"
    = "//".
Proof.
  apply (proj1 (proj2 (s3_key_normal_form Sample.versioned
                  (mkLocalStorage (λ h, "/cache/" ++ h) (λ _, "/")) "h1"))).
  reflexivity.
Defined.

Lemma split_app_sep (sep : ascii) (p : string) :
  PyStr.split sep (p ++ String sep EmptyString)
  = (PyStr.split sep p ++ [EmptyString])%list.
Proof.
  induction p as [|c p IH].
  - rewrite append_empty_l. cbn [PyStr.split]. now rewrite Ascii.eqb_refl.
  - rewrite append_cons. cbn [PyStr.split]. rewrite IH.
    destruct (Ascii.eqb c sep); [reflexivity|].
    pose proof (split_not_nil sep p) as Hne.
    destruct (PyStr.split sep p) as [|h t]; [contradiction|reflexivity].
Qed.

Lemma components_trailing_slash (p : string) :
  PurePosixPath.components (p ++ "/") = PurePosixPath.components p.
Proof.
  unfold PurePosixPath.components.
  rewrite split_app_sep, List.filter_app. cbn [List.filter].
  change (PurePosixPath.keep EmptyString) with false. apply app_nil_r.
Qed.

(** X16.  What the prefix adds to a key: an empty prefix adds nothing,
    the key is the remote path in normal form; and a slash at the end
    of a relative prefix makes no difference to any key. *)
Theorem s3_key_prefix_normalisation (self : AWSRemoteStorage)
    (local : LocalStorage) (sha256 : string) :
  (path_prefix self = EmptyString →
   s3_key self local sha256
   = PurePosixPath.str (PurePosixPath.make [hash_to_remote_path local sha256]))
  ∧ (∀ self' : AWSRemoteStorage,
       PyStr.startswith (path_prefix self) "/" = false →
       path_prefix self ≠ EmptyString →
       path_prefix self' = path_prefix self ++ "/" →
       s3_key self' local sha256 = s3_key self local sha256).
Proof.
  unfold s3_key. split.
  - intros ->. unfold PurePosixPath.make. cbn [rev app].
    destruct (PyStr.startswith (hash_to_remote_path local sha256) "/") eqn:Hs.
    + apply startswith_slash in Hs as [p ->]. now rewrite parse_rev_absolute.
    + now rewrite !(parse_rev_relative _ _ Hs).
  - intros self' Hrel Hne ->.
    destruct (PyStr.startswith (hash_to_remote_path local sha256) "/") eqn:Hs.
    + now rewrite !(make_absolute _ _ Hs).
    + assert (Hrel' : PyStr.startswith (path_prefix self ++ "/") "/" = false).
      { destruct (path_prefix self) as [|c p]; [contradiction|].
        rewrite append_cons. exact Hrel. }
      rewrite (make_relative _ _ Hrel' Hs), (make_relative _ _ Hrel Hs).
      now rewrite components_trailing_slash.
Qed.

Lemma s3_key_prefix_normalisation_witness :
  s3_key Sample.versioned Sample.local "h1" = s3_key
    (mkAWSRemoteStorage "s3://b/data/v1" "b" "data/v1") Sample.local "h1".
Proof.
  apply (proj2 (s3_key_prefix_normalisation
                  (mkAWSRemoteStorage "s3://b/data/v1" "b" "data/v1")
                  Sample.local "h1") Sample.versioned);
    [reflexivity|discriminate|reflexivity].
Defined.
